(** * TampaDynamics/base: the admin gate and the chat widget

    A shallow embedding of [src/app/protected/page.tsx]: the server page
    [ProtectedPage], and the client component [Chat] with its helpers
    [generateSessionId] and [formatResponse], its two effects (load on
    mount, save on every change of [messages]) and its submit handler
    [sendMessage].

    Conventions.
    - A JavaScript string is a [string]: a sequence of code units, here
      restricted to the code units below 256.
    - A JavaScript number is a [Z]; only the safe integers (magnitude at
      most 2^53) are in the model.
    - Code that can throw returns a [result]; [Unmodelled] marks the inputs
      on which the embedding takes no position.
    - [localStorage] is a finite map from keys to strings. *)

From Stdlib Require Import ZArith QArith Qround List Ascii String Bool Lia.
From Stdlib Require Import DecimalString HexadecimalString.
From stdpp Require Import base gmap strings list relations.

(** ** Outcomes of code that may throw *)

Inductive exn := SyntaxError | TypeError.

Inductive result (A : Type) :=
| Ok (a : A)
| Throw (e : exn)
| Unmodelled.
Arguments Ok {A} a.
Arguments Throw {A} e.
Arguments Unmodelled {A}.

#[global] Instance result_ret : MRet result := fun _ a => Ok a.

#[global] Instance result_bind : MBind result := fun _ _ k r =>
  match r with
  | Ok a => k a
  | Throw e => Throw e
  | Unmodelled => Unmodelled
  end.

(** [f] on every item in turn, up to the first one that does not return. *)
Definition traverse {A B} (f : A -> result B) : list A -> result (list B) :=
  fix go (l : list A) : result (list B) :=
    match l with
    | [] => Ok []
    | x :: l' => y ← f x; ys ← go l'; Ok (y :: ys)
    end.

(** ** String primitives of the platform *)

Module JSString.

(** WhiteSpace and LineTerminator code points below U+0100: TAB, LF, VT, FF,
    CR, SP and NBSP.  These are what [String.prototype.trim] strips. *)
Definition isWhiteSpace (c : ascii) : bool :=
  match N_of_ascii c with
  | 9%N | 10%N | 11%N | 12%N | 13%N | 32%N | 160%N => true
  | _ => false
  end.

Fixpoint trimStart (s : string) : string :=
  match s with
  | EmptyString => EmptyString
  | String c s' => if isWhiteSpace c then trimStart s' else s
  end.

Fixpoint trimEnd (s : string) : string :=
  match s with
  | EmptyString => EmptyString
  | String c s' =>
      match trimEnd s' with
      | EmptyString => if isWhiteSpace c then EmptyString else String c EmptyString
      | t => String c t
      end
  end.

(** [s.trim()] *)
Definition trim (s : string) : string := trimEnd (trimStart s).

(** [s.endsWith(suffix)] *)
Fixpoint endsWith (s suffix : string) : bool :=
  (s =? suffix)%string ||
  match s with
  | EmptyString => false
  | String _ s' => endsWith s' suffix
  end.

(** [s.split(sep)] for a non-empty separator.  [cur] holds the characters of
    the piece being read, last one first; [skip] counts the characters of a
    separator still to be passed over. *)
Fixpoint split_from (sep : string) (skip : nat) (cur : list ascii) (s : string)
  : list string :=
  match s with
  | EmptyString => [string_of_list_ascii (rev cur)]
  | String c s' =>
      match skip with
      | S k => split_from sep k cur s'
      | O =>
          if String.prefix sep s
          then string_of_list_ascii (rev cur)
               :: split_from sep (String.length sep - 1) [] s'
          else split_from sep 0 (c :: cur) s'
      end
  end.

Definition split (sep s : string) : list string := split_from sep 0 [] s.

(** [parts.join(sep)] on strings *)
Fixpoint join (sep : string) (parts : list string) : string :=
  match parts with
  | [] => EmptyString
  | [p] => p
  | p :: rest => p +:+ sep +:+ join sep rest
  end.

Definition LF : string := String (ascii_of_N 10) EmptyString.

End JSString.

(** ** JavaScript values, as far as JSON reaches *)

#[local] Set Warnings "-register-all".

Inductive js :=
| JUndefined
| JNull
| JBool (b : bool)
| JNumber (n : Z)
| JString (s : string)
| JArray (items : list js)
| JObject (fields : list (string * js)).

Module JS.

Definition safeInteger (n : Z) : bool := (Z.abs n <=? 2 ^ 53)%Z.

(** Own-property lookup in a property list; a key set twice holds its last
    value. *)
Fixpoint lookup (k : string) (fields : list (string * js)) : option js :=
  match fields with
  | [] => None
  | (k', v) :: rest =>
      match lookup k rest with
      | Some v' => Some v'
      | None => if (k' =? k)%string then Some v else None
      end
  end.

Definition hasOwn (k : string) (fields : list (string * js)) : bool :=
  match lookup k fields with Some _ => true | None => false end.

(** [v.k] for a key that no prototype defines ([role], [content], [props],
    [children], [output]): a [TypeError] on [undefined] and [null],
    [undefined] when the property is missing. *)
Definition get (v : js) (k : string) : result js :=
  match v with
  | JUndefined | JNull => Throw TypeError
  | JObject fields =>
      match lookup k fields with Some x => Ok x | None => Ok JUndefined end
  | _ => Ok JUndefined
  end.

(** ToBoolean *)
Definition truthy (v : js) : bool :=
  match v with
  | JUndefined | JNull => false
  | JBool b => b
  | JNumber n => negb (n =? 0)%Z
  | JString s => negb (s =? "")%string
  | JArray _ | JObject _ => true
  end.

(** The values the embedding speaks about: every number in them is a safe
    integer. *)
Fixpoint modelled (v : js) : bool :=
  match v with
  | JNumber n => safeInteger n
  | JArray items => forallb modelled items
  | JObject fields => forallb (fun kv => modelled (snd kv)) fields
  | _ => true
  end.

Definition numberToString (n : Z) : string :=
  DecimalString.NilZero.string_of_int (Z.to_int n).

(** [String(v)].  An array is joined with commas, [undefined] and [null]
    items giving the empty string.  A plain object gives "[object Object]";
    one with an own [toString] property (never callable in JSON data) has no
    primitive value and throws. *)
Fixpoint toString (v : js) : result string :=
  match v with
  | JUndefined => Ok "undefined"
  | JNull => Ok "null"
  | JBool true => Ok "true"
  | JBool false => Ok "false"
  | JNumber n => if safeInteger n then Ok (numberToString n) else Unmodelled
  | JString s => Ok s
  | JArray items =>
      parts ← traverse (fun x => match x with
                                 | JUndefined | JNull => Ok ""
                                 | _ => toString x
                                 end) items;
      Ok (JSString.join "," parts)
  | JObject fields =>
      if hasOwn "toString" fields then Throw TypeError else Ok "[object Object]"
  end.

End JS.

(** ** React elements built by the component *)

(** [<p key={index} className="mb-2 last:mb-0">{text}</p>] *)
Record Paragraph := { key : nat; className : string; text : string }.

(** [props.children] of a fragment: the single expression between the tags,
    a string or an array of paragraphs. *)
Inductive Children :=
| TextChild (s : string)
| ArrayChild (ps : list Paragraph).

(** [<>{children}</>] *)
Inductive JSXElement :=
| Fragment (children : Children).

Definition paragraph (index : nat) (line : string) : Paragraph :=
  {| key := index; className := "mb-2 last:mb-0"; text := line |}.

(** ** formatResponse *)

(** [typeof text === 'string' ? text : String(text ?? '')] *)
Definition safeText (text : js) : result string :=
  match text with
  | JString s => Ok s
  | JUndefined | JNull => Ok ""
  | v => JS.toString v
  end.

(** The fragment of a sentence split: [s.trim() + (s.endsWith('.') ? '' : '.')] *)
Definition sentence (s : string) : string :=
  JSString.trim s +:+ (if JSString.endsWith s "." then "" else ".").

(** The body of [formatResponse] once [safeText] is known. *)
Definition formatText (safeText : string) : JSXElement :=
  let lines :=
    filter (fun line => JSString.trim line ≠ "") (JSString.split JSString.LF safeText) in
  if 1 <? length lines then
    Fragment (ArrayChild (imap paragraph lines))
  else
    let sentences := map sentence (JSString.split ". " safeText) in
    if (1 <? length sentences) || (100 <? String.length safeText) then
      Fragment (ArrayChild (imap paragraph sentences))
    else
      Fragment (TextChild safeText).

Definition formatResponse (text : js) : result JSXElement :=
  s ← safeText text; Ok (formatText s).

(** The blocks a formatted reply displays. *)
Definition blocks (e : JSXElement) : list string :=
  match e with
  | Fragment (TextChild s) => [s]
  | Fragment (ArrayChild ps) => map text ps
  end.

(** ** JSON.stringify and JSON.parse *)

Module JSON.

Definition DQUOTE : ascii := ascii_of_N 34.
Definition BACKSLASH : ascii := ascii_of_N 92.

Definition hexDigit (n : N) : ascii :=
  if (n <? 10)%N then ascii_of_N (48 + n) else ascii_of_N (87 + n).

(** QuoteJSONString, one code unit at a time. *)
Definition escape (c : ascii) : string :=
  let n := N_of_ascii c in
  if (n =? 34)%N then String BACKSLASH (String DQUOTE "")
  else if (n =? 92)%N then String BACKSLASH (String BACKSLASH "")
  else if (n =? 8)%N then String BACKSLASH "b"
  else if (n =? 9)%N then String BACKSLASH "t"
  else if (n =? 10)%N then String BACKSLASH "n"
  else if (n =? 12)%N then String BACKSLASH "f"
  else if (n =? 13)%N then String BACKSLASH "r"
  else if (n <? 32)%N then
    String BACKSLASH ("u00" +:+ String (hexDigit (n / 16)) (String (hexDigit (n mod 16)) ""))
  else String c "".

Fixpoint escapeAll (s : string) : string :=
  match s with
  | EmptyString => EmptyString
  | String c s' => escape c +:+ escapeAll s'
  end.

Definition quote (s : string) : string :=
  String DQUOTE (escapeAll s +:+ String DQUOTE "").

(** [JSON.stringify(v)] without indentation.  In an array [undefined] is
    written as null, in an object a property holding [undefined] is left
    out; at the top [undefined] gives no text at all. *)
Fixpoint stringify (v : js) : result (option string) :=
  match v with
  | JUndefined => Ok None
  | JNull => Ok (Some "null")
  | JBool true => Ok (Some "true")
  | JBool false => Ok (Some "false")
  | JNumber n =>
      if JS.safeInteger n then Ok (Some (JS.numberToString n)) else Unmodelled
  | JString s => Ok (Some (quote s))
  | JArray items =>
      parts ← traverse (fun x => t ← stringify x; Ok (default "null" t)) items;
      Ok (Some ("[" +:+ JSString.join "," parts +:+ "]"))
  | JObject fields =>
      parts ← traverse (fun kv => t ← stringify (snd kv);
                                  Ok match t with
                                     | Some t => Some (quote (fst kv) +:+ ":" +:+ t)
                                     | None => None
                                     end)
                       fields;
      Ok (Some ("{" +:+ JSString.join "," (omap id parts) +:+ "}"))
  end.

(** JSON whitespace: TAB, LF, CR and SP. *)
Definition isSpace (c : ascii) : bool :=
  match N_of_ascii c with
  | 9%N | 10%N | 13%N | 32%N => true
  | _ => false
  end.

Fixpoint skipSpace (s : string) : string :=
  match s with
  | EmptyString => EmptyString
  | String c s' => if isSpace c then skipSpace s' else s
  end.

Definition hexValue (c : ascii) : option N :=
  let n := N_of_ascii c in
  if (48 <=? n)%N && (n <=? 57)%N then Some (n - 48)%N
  else if (97 <=? n)%N && (n <=? 102)%N then Some (n - 87)%N
  else if (65 <=? n)%N && (n <=? 70)%N then Some (n - 55)%N
  else None.

Definition digitValue (c : ascii) : option Z :=
  let n := N_of_ascii c in
  if (48 <=? n)%N && (n <=? 57)%N then Some (Z.of_N (n - 48)) else None.

(** The characters of a string literal after its opening quote, up to and
    including the closing quote; [acc] holds what was read, last first. *)
Fixpoint parseChars (acc : list ascii) (s : string) : result (string * string) :=
  match s with
  | EmptyString => Throw SyntaxError
  | String c s' =>
      if (c =? DQUOTE)%char then Ok (string_of_list_ascii (rev acc), s')
      else if (c =? BACKSLASH)%char then
        match s' with
        | EmptyString => Throw SyntaxError
        | String e s'' =>
            if (e =? DQUOTE)%char then parseChars (DQUOTE :: acc) s''
            else if (e =? BACKSLASH)%char then parseChars (BACKSLASH :: acc) s''
            else
              match e with
              | "/"%char => parseChars ("/"%char :: acc) s''
              | "b"%char => parseChars (ascii_of_N 8 :: acc) s''
              | "f"%char => parseChars (ascii_of_N 12 :: acc) s''
              | "n"%char => parseChars (ascii_of_N 10 :: acc) s''
              | "r"%char => parseChars (ascii_of_N 13 :: acc) s''
              | "t"%char => parseChars (ascii_of_N 9 :: acc) s''
              | "u"%char =>
                  match s'' with
                  | String h1 (String h2 (String h3 (String h4 rest))) =>
                      match hexValue h1, hexValue h2, hexValue h3, hexValue h4 with
                      | Some a, Some b, Some c3, Some d =>
                          if (a =? 0)%N && (b =? 0)%N
                          then parseChars (ascii_of_N (16 * c3 + d) :: acc) rest
                          else Unmodelled
                      | _, _, _, _ => Throw SyntaxError
                      end
                  | _ => Throw SyntaxError
                  end
              | _ => Throw SyntaxError
              end
        end
      else if (N_of_ascii c <? 32)%N then Throw SyntaxError
      else parseChars (c :: acc) s'
  end.

(** The digits that continue an integer whose value so far is [n]. *)
Fixpoint parseDigits (n : Z) (s : string) : Z * string :=
  match s with
  | EmptyString => (n, s)
  | String c s' =>
      match digitValue c with
      | Some d => parseDigits (10 * n + d) s'
      | None => (n, s)
      end
  end.

(** A number, its sign already read.  Fractions and exponents are legal JSON
    but denote numbers outside the model, as do integers that are not safe. *)
Definition parseNumber (negative : bool) (s : string) : result (js * string) :=
  match s with
  | EmptyString => Throw SyntaxError
  | String c s' =>
      match digitValue c with
      | None => Throw SyntaxError
      | Some d =>
          let '(n, rest) := if (d =? 0)%Z then (0%Z, s') else parseDigits d s' in
          match rest with
          | String "."%char _ | String "e"%char _ | String "E"%char _ => Unmodelled
          | _ =>
              if JS.safeInteger n
              then Ok (JNumber (if negative then (- n)%Z else n), rest)
              else Unmodelled
          end
      end
  end.

(** A key that is an array index is enumerated before the other keys,
    whatever the order of insertion. *)
Definition isArrayIndex (k : string) : bool :=
  match k with
  | EmptyString => false
  | String "0"%char EmptyString => true
  | String "0"%char _ => false
  | _ => forallb (fun c => match digitValue c with Some _ => true | None => false end)
                 (list_ascii_of_string k)
  end.

(** CreateDataProperty: an existing key keeps its place and takes the new
    value, a new key goes last. *)
Fixpoint setProperty (k : string) (v : js) (fields : list (string * js))
  : list (string * js) :=
  match fields with
  | [] => [(k, v)]
  | (k', v') :: rest =>
      if (k' =? k)%string then (k', v) :: rest else (k', v') :: setProperty k v rest
  end.

Fixpoint parseValue (fuel : nat) (s : string) : result (js * string) :=
  match fuel with
  | O => Unmodelled
  | S fuel' =>
      match skipSpace s with
      | EmptyString => Throw SyntaxError
      | String c rest =>
          if (c =? DQUOTE)%char then
            '(str, rest') ← parseChars [] rest; Ok (JString str, rest')
          else
            match c with
            | "["%char =>
                match skipSpace rest with
                | String "]"%char rest' => Ok (JArray [], rest')
                | _ => parseElements fuel' [] rest
                end
            | "{"%char =>
                match skipSpace rest with
                | String "}"%char rest' => Ok (JObject [], rest')
                | _ => parseMembers fuel' [] rest
                end
            | "-"%char => parseNumber true rest
            | "t"%char =>
                match rest with
                | String "r"%char (String "u"%char (String "e"%char rest')) =>
                    Ok (JBool true, rest')
                | _ => Throw SyntaxError
                end
            | "f"%char =>
                match rest with
                | String "a"%char (String "l"%char (String "s"%char (String "e"%char rest'))) =>
                    Ok (JBool false, rest')
                | _ => Throw SyntaxError
                end
            | "n"%char =>
                match rest with
                | String "u"%char (String "l"%char (String "l"%char rest')) =>
                    Ok (JNull, rest')
                | _ => Throw SyntaxError
                end
            | _ => parseNumber false (String c rest)
            end
      end
  end

with parseElements (fuel : nat) (acc : list js) (s : string) : result (js * string) :=
  match fuel with
  | O => Unmodelled
  | S fuel' =>
      '(v, rest) ← parseValue fuel' s;
      match skipSpace rest with
      | String ","%char rest' => parseElements fuel' (v :: acc) rest'
      | String "]"%char rest' => Ok (JArray (rev (v :: acc)), rest')
      | _ => Throw SyntaxError
      end
  end

with parseMembers (fuel : nat) (acc : list (string * js)) (s : string)
  : result (js * string) :=
  match fuel with
  | O => Unmodelled
  | S fuel' =>
      match skipSpace s with
      | String c rest =>
          if (c =? DQUOTE)%char then
            '(k, rest1) ← parseChars [] rest;
            match skipSpace rest1 with
            | String ":"%char rest2 =>
                '(v, rest3) ← parseValue fuel' rest2;
                if isArrayIndex k then Unmodelled
                else
                  let acc' := setProperty k v acc in
                  match skipSpace rest3 with
                  | String ","%char rest4 => parseMembers fuel' acc' rest4
                  | String "}"%char rest4 => Ok (JObject acc', rest4)
                  | _ => Throw SyntaxError
                  end
            | _ => Throw SyntaxError
            end
          else Throw SyntaxError
      | EmptyString => Throw SyntaxError
      end
  end.

(** [JSON.parse(text)]: one value, with nothing but whitespace after it. *)
Definition parse (text : string) : result js :=
  '(v, rest) ← parseValue (2 * String.length text + 2) text;
  match skipSpace rest with
  | EmptyString => Ok v
  | _ => Throw SyntaxError
  end.

End JSON.

(** ** The gated page *)

Module Auth.

(** What [fetchAuthSession] resolves to, as far as the page reads it:
    [session.tokens?.idToken?.payload], the claims of the id token. *)
Record JWT := { payload : list (string * js) }.
Record AuthTokens := { idToken : option JWT }.
Record AuthSession := { tokens : option AuthTokens }.

(** The two ways [fetchAuthSession()] can settle. *)
Inductive Fetch :=
| Resolves (session : AuthSession)
| Rejects.

End Auth.

(** [<div>text</div>] *)
Inductive Page := Div (text : string).

Definition accessDenied : Page := Div "Access Denied: Admins Only".
Definition welcome : Page := Div "Welcome, Admin! This is protected content.".

Fixpoint stringIncludes (s sub : string) : bool :=
  String.prefix sub s ||
  match s with
  | EmptyString => false
  | String _ s' => stringIncludes s' sub
  end.

Definition isString (s : string) (v : js) : bool :=
  match v with
  | JString s' => (s' =? s)%string
  | _ => false
  end.

(** [groups.includes(name)]: a search of the items on an array, a substring
    test on a string; no other value has a callable [includes]. *)
Definition includes (groups : js) (name : string) : result bool :=
  match groups with
  | JArray items => Ok (existsb (isString name) items)
  | JString s => Ok (stringIncludes s name)
  | _ => Throw TypeError
  end.

(** The operation run in the server context: the session, or [null] when
    [fetchAuthSession] throws. *)
Definition resolveSession (f : Auth.Fetch) : option Auth.AuthSession :=
  match f with
  | Auth.Resolves session => Some session
  | Auth.Rejects => None
  end.

(** [session?.tokens?.idToken?.payload['cognito:groups']] *)
Definition groupsClaim (session : option Auth.AuthSession) : js :=
  match session with
  | None => JUndefined
  | Some s =>
      match Auth.tokens s with
      | None => JUndefined
      | Some t =>
          match Auth.idToken t with
          | None => JUndefined
          | Some jwt => default JUndefined (JS.lookup "cognito:groups" (Auth.payload jwt))
          end
      end
  end.

(** [... || []] *)
Definition groupsOf (session : option Auth.AuthSession) : js :=
  let claim := groupsClaim session in
  if JS.truthy claim then claim else JArray [].

Definition ProtectedPage (f : Auth.Fetch) : result Page :=
  let session := resolveSession f in
  let groups := groupsOf session in
  isAdmin ← includes groups "admin";
  if negb isAdmin then Ok accessDenied else Ok welcome.

(** ** The chat widget *)

Inductive Content :=
| Raw (v : js)
| Element (e : JSXElement).

(** A [Message] as it exists at run time: the load copies [role] and, for a
    role other than 'ai', [content] from storage as they are. *)
Record Message := { role : js; content : Content }.

Definition userMessage (input : string) : Message :=
  {| role := JString "user"; content := Raw (JString input) |}.

Definition aiMessage (formattedContent : JSXElement) : Message :=
  {| role := JString "ai"; content := Element formattedContent |}.

(** The component state held by [useState]. *)
Record ChatState := {
  messages : list Message;
  input : string;
  isOpen : bool;
  sessionId : string
}.

Definition initialState : ChatState :=
  {| messages := []; input := ""; isOpen := false; sessionId := "" |}.

Definition setMessages (f : list Message -> list Message) (st : ChatState) : ChatState :=
  {| messages := f (messages st); input := input st; isOpen := isOpen st;
     sessionId := sessionId st |}.

Definition setInput (value : string) (st : ChatState) : ChatState :=
  {| messages := messages st; input := value; isOpen := isOpen st;
     sessionId := sessionId st |}.

Definition setSessionId (value : string) (st : ChatState) : ChatState :=
  {| messages := messages st; input := input st; isOpen := isOpen st;
     sessionId := value |}.

(** [webhookUrl] and [apiKey] with their defaults applied. *)
Record ChatProps := { webhookUrl : string; apiKey : string }.

Definition defaultProps : ChatProps :=
  {| webhookUrl := "https://automation.tampadynamics.com/webhook/dynamics-chat";
     apiKey := "" |}.

(** One call of [axios.post]: the URL, the two fields of the body and the
    Authorization header, if any. *)
Record Request := {
  url : string;
  message : string;
  requestSessionId : string;
  authorization : option string
}.

(** What the page lives in: the component state, the browser's
    [localStorage], the requests sent so far and the number of calls made
    to [Math.random]. *)
Record World := {
  state : ChatState;
  localStorage : gmap string string;
  requests : list Request;
  draws : nat
}.

Definition withState (st : ChatState) (w : World) : World :=
  {| state := st; localStorage := localStorage w; requests := requests w;
     draws := draws w |}.

Definition setItem (k v : string) (w : World) : World :=
  {| state := state w; localStorage := <[k := v]> (localStorage w);
     requests := requests w; draws := draws w |}.

Definition getItem (k : string) (w : World) : option string := localStorage w !! k.

(** *** generateSessionId *)

(** [Math.floor(r * 16).toString(16)].  A double in [0, 1) is a rational and
    its product with 16 is exact. *)
Definition hexDraw (r : Q) : string :=
  HexadecimalString.NilZero.string_of_int (Z.to_hex_int (Qfloor (r * 16))).

(** [[...Array(32)].map(() => ...).join('')], the [i]-th call of
    [Math.random] from now returning [random (from + i)]. *)
Definition generateSessionId (random : nat -> Q) (from : nat) : string :=
  JSString.join "" (map (fun i => hexDraw (random (from + i))) (seq 0 32)).

(** *** Stored messages *)

(** [{ role, content }] as [JSON.parse] returns a well-typed one. *)
Record StoredMessage := { storedRole : string; storedContent : string }.

Definition storedValue (m : StoredMessage) : js :=
  JObject [("role", JString (storedRole m)); ("content", JString (storedContent m))].

(** The enumerable properties of a paragraph element that are not symbols,
    as React 18 creates them outside a render; [key] is kept as a string. *)
Definition elementValue (p : Paragraph) : js :=
  JObject [("type", JString "p");
           ("key", JString (JS.numberToString (Z.of_nat (key p))));
           ("ref", JNull);
           ("props", JObject [("className", JString (className p));
                              ("children", JString (text p))]);
           ("_owner", JNull)].

(** [element.props.children] *)
Definition childrenValue (e : JSXElement) : js :=
  match e with
  | Fragment (TextChild s) => JString s
  | Fragment (ArrayChild ps) => JArray (map elementValue ps)
  end.

(** [typeof msg.content === 'string' ? msg.content : msg.content.props.children] *)
Definition storableContent (c : Content) : result js :=
  match c with
  | Raw (JString s) => Ok (JString s)
  | Element e => Ok (childrenValue e)
  | Raw v => props ← JS.get v "props"; JS.get props "children"
  end.

Definition storableMessage (msg : Message) : result js :=
  c ← storableContent (content msg);
  Ok (JObject [("role", role msg); ("content", c)]).

(** *** The two effects *)

(** The effect on [[messages]] (lines 133-140), for the [messages] of the
    render it belongs to: the whole history is written again. *)
Definition saveEffect (messages : list Message) (w : World) : result World :=
  storableMessages ← traverse storableMessage messages;
  t ← JSON.stringify (JArray storableMessages);
  Ok (setItem "chatMessages" (default "undefined" t) w).

(** The callback of [parsedMessages.map] in the effect on mount. *)
Definition loadMessage (msg : js) : result Message :=
  r ← JS.get msg "role";
  if isString "ai" r then
    c ← JS.get msg "content";
    e ← formatResponse c;
    Ok {| role := r; content := Element e |}
  else
    c ← JS.get msg "content";
    Ok {| role := r; content := Raw c |}.

(** [parsedMessages.map(...)]: only an array has a callable [map]. *)
Definition loadParsed (parsedMessages : js) : result (list Message) :=
  match parsedMessages with
  | JArray items => traverse loadMessage items
  | _ => Throw TypeError
  end.

(** Lines 112-121.  [None]: [setMessages] was not called. *)
Definition loadMessages (w : World) : result (option (list Message)) :=
  match getItem "chatMessages" w with
  | None | Some EmptyString => Ok None
  | Some storedMessages =>
      parsedMessages ← JSON.parse storedMessages;
      loaded ← loadParsed parsedMessages;
      Ok (Some loaded)
  end.

Section Chat.

Variable props : ChatProps.
Variable random : nat -> Q.

(** Lines 123-130. *)
Definition initSessionId (w : World) : World :=
  match getItem "chatSessionId" w with
  | Some (String c s as storedSessionId) =>
      withState (setSessionId storedSessionId (state w)) w
  | _ =>
      let newSessionId := generateSessionId random (draws w) in
      let w1 := withState (setSessionId newSessionId (state w)) w in
      let w2 := {| state := state w1; localStorage := localStorage w1;
                   requests := requests w1; draws := draws w + 32 |} in
      setItem "chatSessionId" newSessionId w2
  end.

(** Mounting the widget on a browser profile.  The first render has the
    initial state.  The effect on mount (lines 111-131) runs: it parses the
    stored history, then settles the session id.  The save effect of that
    first render follows, with its empty history.  When the load has called
    [setMessages] the component renders again and the save effect runs on
    the loaded history. *)
Definition mount (storage : gmap string string) (drawn : nat) : result World :=
  let w0 := {| state := initialState; localStorage := storage;
               requests := []; draws := drawn |} in
  loaded ← loadMessages w0;
  let w1 := initSessionId w0 in
  w2 ← saveEffect (messages (state w0)) w1;
  match loaded with
  | None => Ok w2
  | Some h => saveEffect h (withState (setMessages (fun _ => h) (state w2)) w2)
  end.

(** *** sendMessage *)

(** [axios.post(webhookUrl, { message, sessionId }, { headers })] *)
Definition post (message sessionId : string) (w : World) : World :=
  {| state := state w; localStorage := localStorage w;
     requests := requests w ++
       [{| url := webhookUrl props; message := message;
           requestSessionId := sessionId;
           authorization :=
             if (apiKey props =? "")%string then None
             else Some ("Bearer " +:+ apiKey props) |}];
     draws := draws w |}.

(** [sendMessage] up to its [await] (lines 142-155): the guard, the two
    state updates and the request, which carries [input] and [sessionId] of
    the render the handler belongs to. *)
Definition sendMessage (w : World) : World :=
  let st := state w in
  if (JSString.trim (input st) =? "")%string then w
  else
    let st1 := setMessages (fun prev => prev ++ [userMessage (input st)]) st in
    let st2 := setInput "" st1 in
    post (input st) (sessionId st) (withState st2 w).

(** How the awaited request settles: with [response.data], or with the
    thrown error, an [AxiosError] that may carry a response status, or
    something else. *)
Inductive RequestError :=
| AxiosError (status : option Z)
| OtherError.

Inductive Outcome :=
| Resolved (data : js)
| Rejected (error : RequestError).

(** Lines 162-164. *)
Definition errorMessage (error : RequestError) : string :=
  match error with
  | AxiosError (Some 404%Z) => "Error: Webhook not found (404). Check n8n setup."
  | _ => "Error: Could not reach AI"
  end.

(** The body of the [catch] clause (lines 160-166); the literals are
    strings, so [formatResponse] cannot throw here. *)
Definition catchError (error : RequestError) (st : ChatState) : ChatState :=
  setMessages (fun prev => prev ++ [aiMessage (formatText (errorMessage error))]) st.

(** Lines 157-158. *)
Definition formattedReply (data : js) : result JSXElement :=
  output ← JS.get data "output";
  formatResponse (if JS.truthy output then output else JString "AI response received").

(** [sendMessage] after its [await] (lines 157-166).  An exception of the
    [try] block is not an [AxiosError]. *)
Definition settle (o : Outcome) (st : ChatState) : result ChatState :=
  match o with
  | Resolved data =>
      match formattedReply data with
      | Ok formattedContent =>
          Ok (setMessages (fun prev => prev ++ [aiMessage formattedContent]) st)
      | Throw _ => Ok (catchError OtherError st)
      | Unmodelled => Unmodelled
      end
  | Rejected error => Ok (catchError error st)
  end.

(** The handler followed by the render it causes: a submission that passes
    the guard changes [messages], so the save effect runs. *)
Definition submit (w : World) : result World :=
  let w1 := sendMessage w in
  if (JSString.trim (input (state w)) =? "")%string then Ok w1
  else saveEffect (messages (state w1)) w1.

(** The continuation followed by the render it causes. *)
Definition receive (o : Outcome) (w : World) : result World :=
  st ← settle o (state w);
  saveEffect (messages st) (withState st w).

(** [onChange] of the input field. *)
Definition onChange (value : string) (w : World) : World :=
  withState (setInput value (state w)) w.

End Chat.

(** ** Vocabulary of the properties *)

Definition isLowerHex (c : ascii) : bool :=
  let n := N_of_ascii c in
  ((48 <=? n)%N && (n <=? 57)%N) || ((97 <=? n)%N && (n <=? 102)%N).

Definition hexDigitString (s : string) : Prop :=
  exists c, s = String c "" /\ isLowerHex c = true.

Definition allWhiteSpace (s : string) : bool :=
  forallb JSString.isWhiteSpace (list_ascii_of_string s).

(** The block the specification describes for a fragment: the trimmed
    fragment, with a period added when it does not end with one. *)
Definition sentenceAsSpecified (s : string) : string :=
  let t := JSString.trim s in
  if JSString.endsWith t "." then t else t +:+ ".".

(** A random source that always returns one half. *)
Definition halves : nat -> Q := fun _ => (1 # 2)%Q.


(** What [JSON.parse] makes of the stored history, [undefined] standing for
    an absent key. *)
Definition storedHistory (w : World) : result js :=
  match getItem "chatMessages" w with
  | Some t => JSON.parse t
  | None => Ok JUndefined
  end.

(** A stored text is a serialized sequence of stored messages when it
    parses to an array of [{role, content}] records with string fields. *)
Definition serializedHistory (t : string) : Prop :=
  exists stored : list StoredMessage, JSON.parse t = Ok (JArray (map storedValue stored)).

(** The text of one stored message and of a stored history. *)
Definition storedText (m : StoredMessage) : string :=
  "{" +:+ JSON.quote "role" +:+ ":" +:+ JSON.quote (storedRole m) +:+ ","
  +:+ JSON.quote "content" +:+ ":" +:+ JSON.quote (storedContent m) +:+ "}".

Definition historyText (l : list StoredMessage) : string :=
  "[" +:+ JSString.join "," (map storedText l) +:+ "]".

(** The message the load makes of a stored one. *)
Definition messageOf (m : StoredMessage) : Message :=
  if (storedRole m =? "ai")%string then aiMessage (formatText (storedContent m))
  else {| role := JString (storedRole m); content := Raw (JString (storedContent m)) |}.

(** A stored message that needs no formatting: a reply is one when the
    formatter returns it as a single text. *)
Definition unformatted (m : StoredMessage) : Prop :=
  storedRole m = "ai" ->
  formatText (storedContent m) = Fragment (TextChild (storedContent m)).

(** A value that [JSON.stringify] turns into a text. *)
Definition writable (v : js) : Prop := exists t, JSON.stringify v = Ok (Some t).

(** A history that the save effect can write, whatever the world. *)
Definition persistable (h : list Message) : Prop :=
  exists t, forall w, saveEffect h w = Ok (setItem "chatMessages" t w).

(** The history a run ends with. *)
Definition history (r : result World) : result (list Message) :=
  w ← r; Ok (messages (state w)).

(** Mounting again on the profile a run has left. *)
Definition reload (random : nat -> Q) (r : result World) : result World :=
  w ← r; mount random (localStorage w) (draws w).

#[global] Instance RequestError_eq_dec : EqDecision RequestError.
Proof. solve_decision. Defined.

(** ** Vocabulary of the further properties *)

(** Whether a character occurs in a text. *)
Definition hasChar (c : ascii) (s : string) : bool :=
  existsb (Ascii.eqb c) (list_ascii_of_string s).

(** The line feed. *)
Definition LFchar : ascii := ascii_of_N 10.

(** The non-blank lines of a text, as the formatter counts them. *)
Definition nonBlankLines (s : string) : list string :=
  filter (fun line => JSString.trim line ≠ "") (JSString.split JSString.LF s).

(** The paragraphs of a formatted reply, none for a single text. *)
Definition paragraphsOf (e : JSXElement) : list Paragraph :=
  match e with
  | Fragment (ArrayChild ps) => ps
  | Fragment (TextChild _) => []
  end.

(** A value that [String] can convert: no object reached through arrays has
    an own [toString] property. *)
Fixpoint convertible (v : js) : bool :=
  match v with
  | JObject fields => negb (JS.hasOwn "toString" fields)
  | JArray items => forallb convertible items
  | _ => true
  end.


(** The id of the state is the id in storage and the id of every request
    sent so far. *)
Definition sessionKept (w : World) : Prop :=
  getItem "chatSessionId" w = Some (sessionId (state w))
  /\ Forall (fun r => requestSessionId r = sessionId (state w)) (requests w).

(** A widget on an empty profile, before its mount, with a text typed in. *)
Definition typed (value : string) : World :=
  {| state := setInput value initialState; localStorage := ∅;
     requests := []; draws := 0 |}.

(** A stored exchange. *)
Definition twoStored : list StoredMessage :=
  [{| storedRole := "user"; storedContent := "Hello" |};
   {| storedRole := "ai"; storedContent := "Hi there." |}].

(** ** Vocabulary of the run across reloads *)

(** Values that [JSON.stringify] writes and [JSON.parse] reads back as they
    were: made of [null], booleans, strings, arrays and objects, the keys of
    an object distinct and none of them an array index. *)
Fixpoint plainJSON (v : js) : bool :=
  match v with
  | JUndefined | JNumber _ => false
  | JNull | JBool _ | JString _ => true
  | JArray items => forallb plainJSON items
  | JObject fields =>
      forallb (fun kv => plainJSON (snd kv)) fields
      && bool_decide (NoDup (map fst fields))
      && forallb (fun kv => negb (JSON.isArrayIndex (fst kv))) fields
  end.

(** The text of such a value. *)
Fixpoint textOf (v : js) : string :=
  match v with
  | JUndefined | JNumber _ => ""
  | JNull => "null"
  | JBool true => "true"
  | JBool false => "false"
  | JString s => JSON.quote s
  | JArray items => "[" +:+ JSString.join "," (map textOf items) +:+ "]"
  | JObject fields =>
      "{" +:+ JSString.join ","
                (map (fun kv => JSON.quote (fst kv) +:+ ":" +:+ textOf (snd kv)) fields)
      +:+ "}"
  end.

Definition fieldText (kv : string * js) : string :=
  JSON.quote (fst kv) +:+ ":" +:+ textOf (snd kv).

(** A bound on the depth of the calls the parser makes for a value. *)
Fixpoint nodes (v : js) : nat :=
  match v with
  | JArray items => S (fold_right (fun x n => S (nodes x + n)) 0 items)
  | JObject fields => S (fold_right (fun kv n => S (nodes (snd kv) + n)) 0 fields)
  | _ => 1
  end.

(** The characters the text of a value can start with. *)
Definition startChars : list ascii :=
  [JSON.DQUOTE; "["; "{"; "n"; "t"; "f"]%char.

(** The parser reads the text of a value back, whatever follows it. *)
Definition readsBack (v : js) : Prop :=
  plainJSON v = true ->
  forall fuel rest,
    nodes v <= fuel -> JSON.parseValue fuel (textOf v +:+ rest) = Ok (v, rest).

(** The messages the widget makes and loads: a text under a role that is a
    string, or a formatted reply of the assistant. *)
Inductive widgetMessage : Message -> Prop :=
| widget_text (r c : string) :
    widgetMessage {| role := JString r; content := Raw (JString c) |}
| widget_reply (e : JSXElement) :
    widgetMessage {| role := JString "ai"; content := Element e |}.

(** What the save effect writes for such a message, and for a history of
    them. *)
Definition writtenValue (m : Message) : js :=
  JObject [("role", role m);
           ("content", match content m with
                       | Raw v => v
                       | Element e => childrenValue e
                       end)].

Definition writtenText (h : list Message) : string :=
  textOf (JArray (map writtenValue h)).

(** A browser profile whose stored history, if there is one, was written by
    the widget. *)
Definition widgetProfile (storage : gmap string string) : Prop :=
  storage !! "chatMessages" = None
  \/ storage !! "chatMessages" = Some ""
  \/ exists h, Forall widgetMessage h /\ storage !! "chatMessages" = Some (writtenText h).

(** A widget at rest on its profile: the history is made of widget
    messages, storage holds its text, and the session id of the state is the
    one in storage, which is not empty. *)
Definition settled (id : string) (w : World) : Prop :=
  Forall widgetMessage (messages (state w))
  /\ getItem "chatMessages" w = Some (writtenText (messages (state w)))
  /\ getItem "chatSessionId" w = Some id
  /\ sessionId (state w) = id
  /\ id <> "".

(** One step in the life of a profile with the widget on it: a key stroke,
    a submission or a settled request, each with the render it causes, or a
    reload of the page, which mounts the widget again on the storage left
    behind, [Math.random] being then any source of numbers. *)
Inductive step (props : ChatProps) : World -> World -> Prop :=
| step_change (value : string) (w : World) : step props w (onChange value w)
| step_submit (w w' : World) : submit props w = Ok w' -> step props w w'
| step_receive (o : Outcome) (w w' : World) : receive o w = Ok w' -> step props w w'
| step_mount (random : nat -> Q) (w w' : World) :
    mount random (localStorage w) (draws w) = Ok w' -> step props w w'.

(** * Properties *)

(** ** Sequencing *)

Lemma bind_Ok {A B} (r : result A) (k : A -> result B) (b : B) :
  r ≫= k = Ok b -> exists a, r = Ok a /\ k a = Ok b.
Proof. destruct r as [a| |]; simpl; [eauto|done|done]. Qed.

Lemma traverse_snoc {A B} (f : A -> result B) (l : list A) (x : A) :
  traverse f (l ++ [x]) = (ys ← traverse f l; y ← f x; Ok (ys ++ [y])).
Proof.
  induction l as [|a l IH]; cbn [app traverse].
  - by destruct (f x).
  - fold (traverse f). rewrite IH. destruct (f a); [|done|done].
    cbn [mbind result_bind]. destruct (traverse f l); [|done|done].
    cbn [mbind result_bind]. by destruct (f x).
Qed.

(** Induction on values, through the items of arrays and the properties of
    objects. *)
Lemma js_induction (P : js -> Prop) :
  P JUndefined -> P JNull -> (forall b, P (JBool b)) -> (forall n, P (JNumber n)) ->
  (forall s, P (JString s)) ->
  (forall items, Forall P items -> P (JArray items)) ->
  (forall fields, Forall (fun kv => P (snd kv)) fields -> P (JObject fields)) ->
  forall v, P v.
Proof.
  intros Hu Hn Hb Hz Hs Ha Ho. fix IH 1.
  intros [| |b|n|s|items|fields];
    [apply Hu|apply Hn|apply Hb|apply Hz|apply Hs| |].
  - apply Ha. induction items as [|x items IHitems]; constructor.
    + apply IH.
    + apply IHitems.
  - apply Ho. induction fields as [|[k x] fields IHfields]; constructor.
    + apply IH.
    + apply IHfields.
Qed.

(** ** Strings *)

Lemma append_cons (x : ascii) (a b : string) : String x a +:+ b = String x (a +:+ b).
Proof. reflexivity. Qed.

Lemma append_char (x : ascii) (b : string) : String x "" +:+ b = String x b.
Proof. reflexivity. Qed.

Lemma append_assoc (a b c : string) : (a +:+ b) +:+ c = a +:+ (b +:+ c).
Proof. induction a as [|x a IH]; [done|]. rewrite !append_cons. by rewrite IH. Qed.

Lemma append_empty_r (a : string) : a +:+ "" = a.
Proof. induction a as [|x a IH]; [done|]. rewrite append_cons. by rewrite IH. Qed.

Lemma length_append (a b : string) :
  String.length (a +:+ b) = String.length a + String.length b.
Proof.
  induction a as [|x a IH]; [done|]. rewrite append_cons. cbn [String.length].
  by rewrite IH.
Qed.

Lemma string_of_list_ascii_snoc (l : list ascii) (c : ascii) (s : string) :
  string_of_list_ascii (l ++ [c]) +:+ s = string_of_list_ascii l +:+ String c s.
Proof.
  induction l as [|x l IH]; [done|].
  cbn [app string_of_list_ascii]. rewrite !append_cons. by rewrite IH.
Qed.

Lemma trimStart_allWhiteSpace s :
  allWhiteSpace s = true -> JSString.trimStart s = "".
Proof.
  unfold allWhiteSpace. induction s as [|c s IH]; simpl; [done|].
  intros [Hc Hs]%andb_prop. rewrite Hc. auto.
Qed.

Lemma trim_allWhiteSpace s : allWhiteSpace s = true -> JSString.trim s = "".
Proof. intros H. unfold JSString.trim. by rewrite trimStart_allWhiteSpace. Qed.

Lemma trimEnd_empty s : JSString.trimEnd s = "" -> allWhiteSpace s = true.
Proof.
  unfold allWhiteSpace. induction s as [|c s IH]; simpl; [done|].
  destruct (JSString.trimEnd s) eqn:E; [|done].
  destruct (JSString.isWhiteSpace c); [auto|done].
Qed.

Lemma trimStart_empty s : JSString.trimStart s = "" -> allWhiteSpace s = true.
Proof.
  unfold allWhiteSpace. induction s as [|c s IH]; simpl; [done|].
  destruct (JSString.isWhiteSpace c); [auto|done].
Qed.

Lemma trimStart_cons s c t :
  JSString.trimStart s = String c t -> JSString.isWhiteSpace c = false.
Proof.
  induction s as [|d s IH]; simpl; [done|].
  destruct (JSString.isWhiteSpace d) eqn:E; [auto|].
  intros [= -> _]. done.
Qed.

(** [trim] leaves nothing exactly when there is nothing but whitespace. *)
Lemma trim_empty_iff s : JSString.trim s = "" <-> allWhiteSpace s = true.
Proof.
  split; [|apply trim_allWhiteSpace].
  unfold JSString.trim. intros H%trimEnd_empty.
  destruct (JSString.trimStart s) as [|c t] eqn:E; [by apply trimStart_empty|].
  apply trimStart_cons in E. unfold allWhiteSpace in H. simpl in H.
  rewrite E in H. done.
Qed.

(** ** The formatter *)

Example format_lines :
  blocks (formatText ("line one" +:+ JSString.LF +:+ "line two")) = ["line one"; "line two"].
Proof. reflexivity. Qed.

Example format_empty : formatText "" = Fragment (TextChild "").
Proof. reflexivity. Qed.

Example format_sentences :
  blocks (formatText "First sentence. Second sentence.")
  = ["First sentence."; "Second sentence."].
Proof. reflexivity. Qed.

Example format_decimal : blocks (formatText "3.5 is a number.") = ["3.5 is a number."].
Proof. reflexivity. Qed.

Lemma endsWith_unfold (s suffix : string) :
  JSString.endsWith s suffix
  = (s =? suffix)%string
    || match s with
       | EmptyString => false
       | String _ s' => JSString.endsWith s' suffix
       end.
Proof. by destruct s. Qed.

(** Leading whitespace does not matter to whether a text ends with a
    period. *)
Lemma endsWith_period_trimStart (s : string) :
  JSString.endsWith (JSString.trimStart s) "." = JSString.endsWith s ".".
Proof.
  induction s as [|c s IH]; [done|].
  cbn [JSString.trimStart]. destruct (JSString.isWhiteSpace c) eqn:Hc; [|done].
  rewrite IH, (endsWith_unfold (String c s)).
  destruct (String.eqb_spec (String c s) ".") as [[= -> ->]|_]; [done|done].
Qed.

Lemma trimEnd_trimStart (s : string) :
  JSString.trimEnd s = s -> JSString.trimEnd (JSString.trimStart s) = JSString.trimStart s.
Proof.
  induction s as [|c s IH]; [done|].
  cbn [JSString.trimStart]. destruct (JSString.isWhiteSpace c) eqn:Hc; [|done].
  intros H. apply IH. cbn [JSString.trimEnd] in H. rewrite Hc in H.
  destruct (JSString.trimEnd s) as [|d t]; [done|]. by injection H.
Qed.

(** X5.  On a fragment that does not end in whitespace the code builds the
    block that the specification describes. *)
Lemma sentence_as_specified (s : string) :
  JSString.trimEnd s = s -> sentence s = sentenceAsSpecified s.
Proof.
  intros Hs. unfold sentence, sentenceAsSpecified, JSString.trim.
  rewrite (trimEnd_trimStart s Hs), endsWith_period_trimStart.
  destruct (JSString.endsWith s "."); [apply append_empty_r|done].
Qed.

(** C5.  The claim is that a fragment whose trimmed form already ends with a
    period gains no other period.  On the text "A. B." followed by a line
    feed, which has one non-blank line, the split on ". " yields the
    fragments "A" and "B." plus line feed; the second, trimmed, is "B." and
    ends with a period, yet the block built from it is "B..": the test
    [endsWith] is made on the fragment before it is trimmed. *)
Theorem sentence_period_after_trailing_whitespace :
  let safeText := "A. B." +:+ JSString.LF in
  let fragment := "B." +:+ JSString.LF in
  length (filter (fun line => JSString.trim line ≠ "")
                 (JSString.split JSString.LF safeText)) = 1
  /\ JSString.split ". " safeText = ["A"; fragment]
  /\ JSString.trim fragment = "B."
  /\ JSString.endsWith (JSString.trim fragment) "." = true
  /\ sentenceAsSpecified fragment = "B."
  /\ sentence fragment = "B.."
  /\ blocks (formatText safeText) = ["A."; "B.."].
Proof. repeat split; reflexivity. Qed.

(** ** The submission guard *)

(** C8.  When the input field holds only whitespace (or nothing), the
    handler returns at its guard: the world after it is the world before
    it, so no message is appended, no request is sent and no state
    changes, and no effect runs. *)
Theorem blank_submission_ignored (props : ChatProps) (w : World) :
  allWhiteSpace (input (state w)) = true ->
  sendMessage props w = w /\ submit props w = Ok w.
Proof.
  intros H%trim_allWhiteSpace.
  unfold submit, sendMessage. rewrite H. done.
Qed.

Lemma blank_submission_ignored_witness :
  let w := {| state := setInput "   " initialState; localStorage := ∅;
              requests := []; draws := 0 |} in
  sendMessage defaultProps w = w /\ submit defaultProps w = Ok w.
Proof. intros w. apply (blank_submission_ignored defaultProps w). reflexivity. Defined.

(** ** The admin gate *)




(** A group claim that is a string and not a list is searched for the
    substring. *)
Example gate_on_string_claim :
  ProtectedPage
    (Auth.Resolves
       {| Auth.tokens :=
            Some {| Auth.idToken :=
                      Some {| Auth.payload :=
                                [("cognito:groups", JString "administrators")] |} |} |})
  = Ok welcome.
Proof. reflexivity. Qed.

(** ** Values within the model *)

Lemma traverse_modelled {A B} (f : A -> result B) (l : list A) :
  Forall (fun x => f x <> Unmodelled) l -> traverse f l <> Unmodelled.
Proof.
  induction 1 as [|x l Hx _ IH]; simpl; [done|].
  destruct (f x); simpl; try done. by destruct (traverse f l).
Qed.

Lemma toString_modelled v : JS.modelled v = true -> JS.toString v <> Unmodelled.
Proof.
  induction v as [| |b|n|s|items IH|fields IH] using js_induction;
    simpl; intros Hv; try done.
  - by destruct b.
  - by rewrite Hv.
  - match goal with |- context [traverse ?f items] =>
      assert (traverse f items <> Unmodelled) as Ht
    end.
    { apply traverse_modelled. rewrite forallb_forall in Hv.
      rewrite Forall_forall in IH |- *. intros x Hx.
      apply list_elem_of_In in Hx.
      specialize (IH x ltac:(by apply list_elem_of_In) (Hv x Hx)). by destruct x. }
    match goal with |- context [traverse ?f items] => destruct (traverse f items) end;
      simpl; done.
  - by destruct (JS.hasOwn "toString" fields).
Qed.

Lemma lookup_modelled k fields v :
  forallb (fun kv => JS.modelled (snd kv)) fields = true ->
  JS.lookup k fields = Some v -> JS.modelled v = true.
Proof.
  induction fields as [|[k' v'] fields IH]; simpl; [done|].
  intros [Hv' Hrest]%andb_prop.
  destruct (JS.lookup k fields) as [x|] eqn:E.
  - intros [= <-]. by apply IH.
  - destruct (k' =? k)%string; [|done]. by intros [= <-].
Qed.

Lemma get_modelled data k v :
  JS.modelled data = true -> JS.get data k = Ok v -> JS.modelled v = true.
Proof.
  destruct data; simpl; try (by intros _ [= <-]); try done.
  intros Hf. destruct (JS.lookup k fields) eqn:E.
  - intros [= <-]. by eapply lookup_modelled.
  - by intros [= <-].
Qed.

Lemma get_not_unmodelled data k : JS.get data k <> Unmodelled.
Proof. destruct data; simpl; try done. by destruct (JS.lookup k fields). Qed.

Lemma formatResponse_modelled v :
  JS.modelled v = true -> formatResponse v <> Unmodelled.
Proof.
  intros Hv. unfold formatResponse.
  assert (safeText v <> Unmodelled) as Hs.
  { pose proof (toString_modelled v Hv). by destruct v. }
  by destruct (safeText v).
Qed.

Lemma formattedReply_modelled data :
  JS.modelled data = true -> formattedReply data <> Unmodelled.
Proof.
  intros Hd. unfold formattedReply.
  pose proof (get_not_unmodelled data "output") as Hg.
  destruct (JS.get data "output") as [output| |] eqn:E; simpl; try done.
  apply formatResponse_modelled.
  destruct (JS.truthy output); [by eapply get_modelled|done].
Qed.

(** ** Failures of the request *)

Lemma errorMessage_other error :
  error <> AxiosError (Some 404%Z) -> errorMessage error = "Error: Could not reach AI".
Proof.
  destruct error as [[status|]|]; try done. intros Hne.
  destruct (decide (status = 404%Z)) as [->|Hs]; [done|].
  unfold errorMessage. destruct status as [|p|p]; try done.
  do 9 (destruct p as [p|p|]; try done).
Qed.

(** C3.  When the request fails, the continuation returns normally and the
    history gains one message at its end, of role 'ai', whose content is the
    formatted error text; the rest of the state is as it was.  For an
    [AxiosError] whose response has status 404 the content is the 404
    literal, which the formatter shows in two paragraphs; for every other
    failure it is "Error: Could not reach AI", shown as it is.  The text is
    the 404 literal exactly when the error is an [AxiosError] with status
    404.  Whatever the outcome, the continuation throws nothing. *)
Theorem request_failure_messages :
  (forall st,
      settle (Rejected (AxiosError (Some 404%Z))) st
      = Ok {| messages :=
                messages st
                ++ [{| role := JString "ai";
                       content :=
                         Element
                           (Fragment
                              (ArrayChild
                                 [{| key := 0; className := "mb-2 last:mb-0";
                                     text := "Error: Webhook not found (404)." |};
                                  {| key := 1; className := "mb-2 last:mb-0";
                                     text := "Check n8n setup." |}])) |}];
              input := input st; isOpen := isOpen st; sessionId := sessionId st |})
  /\ (forall error st,
         error <> AxiosError (Some 404%Z) ->
         settle (Rejected error) st
         = Ok {| messages :=
                   messages st
                   ++ [{| role := JString "ai";
                          content :=
                            Element (Fragment (TextChild "Error: Could not reach AI")) |}];
                 input := input st; isOpen := isOpen st; sessionId := sessionId st |})
  /\ (forall error st,
         settle (Rejected error) st
         = Ok {| messages :=
                   messages st
                   ++ [{| role := JString "ai";
                          content := Element (formatText (errorMessage error)) |}];
                 input := input st; isOpen := isOpen st; sessionId := sessionId st |})
  /\ (forall error,
         (errorMessage error = "Error: Webhook not found (404). Check n8n setup."
          <-> error = AxiosError (Some 404%Z))
         /\ (errorMessage error = "Error: Could not reach AI"
             <-> error <> AxiosError (Some 404%Z)))
  /\ blocks (formatText "Error: Webhook not found (404). Check n8n setup.")
     = ["Error: Webhook not found (404)."; "Check n8n setup."]
  /\ blocks (formatText "Error: Could not reach AI") = ["Error: Could not reach AI"]
  /\ (forall o st e, settle o st <> Throw e).
Proof.
  split; [reflexivity|]. split; [|split; [reflexivity|]].
  { intros error st Hne. cbn [settle]. unfold catchError, setMessages.
    rewrite (errorMessage_other error Hne). reflexivity. }
  split; [|split; [reflexivity|split; [reflexivity|]]].
  - intros error. destruct (decide (error = AxiosError (Some 404%Z))) as [->|Hne].
    + split; split; done.
    + rewrite (errorMessage_other error Hne). split; split; done.
  - intros [data|error] st e; simpl; [|done].
    by destruct (formattedReply data).
Qed.

Lemma request_failure_messages_witness :
  settle (Rejected (AxiosError (Some 500%Z))) initialState
  = Ok {| messages :=
            [{| role := JString "ai";
                content := Element (Fragment (TextChild "Error: Could not reach AI")) |}];
          input := ""; isOpen := false; sessionId := "" |}.
Proof.
  destruct request_failure_messages as (_ & H & _).
  apply (H (AxiosError (Some 500%Z)) initialState). discriminate.
Defined.

(** ** The history only grows at its end *)

(** C10.  The handler updates the history in three places and each update
    appends one message and keeps the messages before it as they were: the
    user message when the guard is passed (and nothing at all when it is
    not), and one assistant message when the request settles, whether it
    resolved, was rejected, or its reply made the [try] block throw.  The
    continuation gives no answer only for a reply that holds a number
    outside the model. *)
Theorem history_append_only (props : ChatProps) :
  (forall w,
      (allWhiteSpace (input (state w)) = true /\ sendMessage props w = w)
      \/ (allWhiteSpace (input (state w)) = false
          /\ messages (state (sendMessage props w))
             = messages (state w) ++ [userMessage (input (state w))]))
  /\ (forall o st,
         match settle o st with
         | Ok st' =>
             exists formattedContent,
               messages st' = messages st ++ [aiMessage formattedContent]
         | Throw _ => False
         | Unmodelled => exists data, o = Resolved data /\ JS.modelled data = false
         end).
Proof.
  split.
  - intros w. destruct (allWhiteSpace (input (state w))) eqn:E.
    + left. split; [done|]. unfold sendMessage.
      by rewrite (trim_allWhiteSpace _ E).
    + right. split; [done|]. unfold sendMessage.
      destruct (String.eqb_spec (JSString.trim (input (state w))) "") as [Ht|Ht].
      * apply trim_empty_iff in Ht. congruence.
      * reflexivity.
  - intros [data|error] st; simpl.
    + pose proof (formattedReply_modelled data) as Hm.
      destruct (formattedReply data) as [e| |]; simpl; eauto.
      exists data. split; [done|]. destruct (JS.modelled data); [|done].
      by destruct Hm.
    + eauto.
Qed.

(** ** The session id *)

Lemma floor_of_draw (r : Q) :
  (0 <= r < 1)%Q -> (0 <= Qfloor (r * 16) < 16)%Z.
Proof.
  intros [H0 H1]. split.
  - change 0%Z with (Qfloor 0). apply Qfloor_resp_le.
    apply Qmult_le_0_compat; [done|discriminate].
  - rewrite Zlt_Qlt. eapply Qle_lt_trans; [apply Qfloor_le|].
    change (inject_Z 16) with (1 * 16)%Q.
    apply Qmult_lt_compat_r; [reflexivity|done].
Qed.

Lemma hexDraw_digit (r : Q) : (0 <= r < 1)%Q -> hexDigitString (hexDraw r).
Proof.
  intros Hr%floor_of_draw. unfold hexDraw, hexDigitString.
  generalize dependent (Qfloor (r * 16)). intros z [Hlo Hhi].
  destruct z as [|p|p]; [| |lia].
  - eexists; split; reflexivity.
  - repeat match goal with
           | q : positive |- _ => destruct q; try lia
           end;
      eexists; split; reflexivity.
Qed.

Lemma join_hexDigits (l : list string) :
  Forall hexDigitString l ->
  String.length (JSString.join "" l) = length l
  /\ forallb isLowerHex (list_ascii_of_string (JSString.join "" l)) = true.
Proof.
  induction 1 as [|s l (c & -> & Hc) Hl [IHlen IHall]]; [done|].
  destruct l as [|s' l].
  - simpl. by rewrite Hc.
  - change (JSString.join "" (String c "" :: s' :: l))
      with (String c (JSString.join "" (s' :: l))).
    cbn [String.length list_ascii_of_string forallb].
    rewrite IHlen, Hc, IHall. done.
Qed.

Lemma generateSessionId_format (random : nat -> Q) (from : nat) :
  (forall i, (0 <= random i < 1)%Q) ->
  String.length (generateSessionId random from) = 32
  /\ forallb isLowerHex (list_ascii_of_string (generateSessionId random from)) = true.
Proof.
  intros Hrandom. unfold generateSessionId.
  match goal with |- context [JSString.join "" ?l] =>
    destruct (join_hexDigits l) as [Hlen Hall]
  end.
  - apply Forall_forall. intros s Hs%list_elem_of_In.
    apply in_map_iff in Hs as (i & <- & _). apply hexDraw_digit, Hrandom.
  - split; [|done]. rewrite Hlen. by rewrite length_map, length_seq.
Qed.

Lemma initSessionId_stored (random : nat -> Q) (w : World) (id : string) :
  getItem "chatSessionId" w = Some id -> id <> "" ->
  initSessionId random w = withState (setSessionId id (state w)) w.
Proof. intros Hget Hne. unfold initSessionId. rewrite Hget. by destruct id. Qed.

Lemma getItem_setItem k v w : getItem k (setItem k v w) = Some v.
Proof. unfold getItem, setItem. simpl. apply lookup_insert_eq. Qed.

Lemma getItem_setItem_ne k k' v w :
  k <> k' -> getItem k' (setItem k v w) = getItem k' w.
Proof. intros Hne. unfold getItem, setItem. simpl. by apply lookup_insert_ne. Qed.

Lemma saveEffect_storage (h : list Message) (w w' : World) :
  saveEffect h w = Ok w' ->
  state w' = state w /\ draws w' = draws w /\ requests w' = requests w
  /\ (forall k, k <> "chatMessages" -> getItem k w' = getItem k w)
  /\ exists t, getItem "chatMessages" w' = Some t.
Proof.
  unfold saveEffect. intros (l & _ & (t & _ & [= <-])%bind_Ok)%bind_Ok.
  repeat split; try done.
  - intros k Hk. by apply getItem_setItem_ne.
  - eexists. apply getItem_setItem.
Qed.

(** ** Writing a history and reading it back *)

(** Reading back one escaped character. *)
Lemma parseChars_escape (c : ascii) (acc : list ascii) (rest : string) :
  JSON.parseChars acc (JSON.escape c +:+ rest) = JSON.parseChars (c :: acc) rest.
Proof. destruct c as [[] [] [] [] [] [] [] []]; reflexivity. Qed.

Lemma parseChars_escapeAll (s : string) (acc : list ascii) (rest : string) :
  JSON.parseChars acc (JSON.escapeAll s +:+ String JSON.DQUOTE rest)
  = Ok (string_of_list_ascii (rev acc) +:+ s, rest).
Proof.
  revert acc. induction s as [|c s IH]; intros acc.
  - cbn. by rewrite append_empty_r.
  - cbn [JSON.escapeAll]. rewrite append_assoc, parseChars_escape, IH.
    cbn [rev]. by rewrite string_of_list_ascii_snoc.
Qed.

Lemma parseValue_quote (fuel : nat) (s rest : string) :
  JSON.parseValue (S fuel) (JSON.quote s +:+ rest) = Ok (JString s, rest).
Proof.
  unfold JSON.quote. rewrite append_cons, append_assoc, append_cons.
  change ("" +:+ rest) with rest.
  change (JSON.parseValue (S fuel) (String JSON.DQUOTE ?x))
    with (JSON.parseChars [] x ≫= λ '(str, rest'), Ok (JString str, rest')).
  by rewrite parseChars_escapeAll.
Qed.

Lemma stringify_storedValue (m : StoredMessage) :
  JSON.stringify (storedValue m) = Ok (Some (storedText m)).
Proof. unfold storedValue, storedText. cbn. by rewrite !append_assoc. Qed.

Lemma parseMembers_quote (fuel : nat) (acc : list (string * js)) (k rest : string) :
  JSON.parseMembers (S fuel) acc (JSON.quote k +:+ String ":" rest)
  = '(v, rest3) ← JSON.parseValue fuel rest;
    if JSON.isArrayIndex k then Unmodelled
    else
      let acc' := JSON.setProperty k v acc in
      match JSON.skipSpace rest3 with
      | String ","%char rest4 => JSON.parseMembers fuel acc' rest4
      | String "}"%char rest4 => Ok (JObject acc', rest4)
      | _ => Throw SyntaxError
      end.
Proof.
  unfold JSON.quote. rewrite append_cons, append_assoc, append_cons.
  change ("" +:+ String ":" rest) with (String ":" rest).
  cbn [JSON.parseMembers].
  change (JSON.skipSpace (String JSON.DQUOTE ?x)) with (String JSON.DQUOTE x).
  cbv beta iota. change (JSON.DQUOTE =? JSON.DQUOTE)%char with true. cbv iota.
  rewrite parseChars_escapeAll. reflexivity.
Qed.

Lemma parseValue_storedText (fuel : nat) (m : StoredMessage) (rest : string) :
  JSON.parseValue (4 + fuel) (storedText m +:+ rest) = Ok (storedValue m, rest).
Proof.
  unfold storedText. rewrite !append_assoc, !append_char.
  change (JSON.parseValue (4 + fuel) (String "{" (JSON.quote "role" +:+ ?x)))
    with (JSON.parseMembers (3 + fuel) [] (JSON.quote "role" +:+ x)).
  change (3 + fuel) with (S (2 + fuel)).
  rewrite parseMembers_quote.
  change (2 + fuel) with (S (S fuel)). rewrite parseValue_quote.
  cbn [mbind result_bind]. cbv beta iota.
  change (JSON.isArrayIndex "role") with false. cbv iota zeta.
  change (JSON.skipSpace (String "," ?x)) with (String "," x). cbv iota.
  rewrite parseMembers_quote, parseValue_quote.
  reflexivity.
Qed.

Lemma traverse_stringify_stored (l : list StoredMessage) :
  traverse (fun x => t ← JSON.stringify x; Ok (default "null" t)) (map storedValue l)
  = Ok (map storedText l).
Proof.
  induction l as [|m l IH]; [done|].
  cbn [map traverse]. rewrite stringify_storedValue. cbn [mbind result_bind default].
  fold (traverse (fun x => t ← JSON.stringify x; Ok (default "null" t))).
  by rewrite IH.
Qed.

Lemma stringify_history (l : list StoredMessage) :
  JSON.stringify (JArray (map storedValue l)) = Ok (Some (historyText l)).
Proof.
  cbn [JSON.stringify]. by rewrite traverse_stringify_stored.
Qed.

Lemma parseElements_S (fuel : nat) (acc : list js) (s : string) :
  JSON.parseElements (S fuel) acc s
  = '(v, rest) ← JSON.parseValue fuel s;
    match JSON.skipSpace rest with
    | String ","%char rest' => JSON.parseElements fuel (v :: acc) rest'
    | String "]"%char rest' => Ok (JArray (rev (v :: acc)), rest')
    | _ => Throw SyntaxError
    end.
Proof. reflexivity. Qed.

Lemma parseElements_stored (l : list StoredMessage) :
  forall (m : StoredMessage) (acc : list js) (fuel : nat) (rest : string),
    JSON.parseElements (5 + length l + fuel) acc
      (JSString.join "," (map storedText (m :: l)) +:+ String "]" rest)
    = Ok (JArray (rev acc ++ map storedValue (m :: l)), rest).
Proof.
  induction l as [|m' l IH]; intros m acc fuel rest.
  - change (5 + length [] + fuel) with (S (4 + fuel)).
    rewrite parseElements_S. cbn [map JSString.join].
    rewrite parseValue_storedText. reflexivity.
  - change (5 + length (m' :: l) + fuel) with (S (4 + (S (length l + fuel)))).
    rewrite parseElements_S.
    change (JSString.join "," (map storedText (m :: m' :: l)))
      with (storedText m +:+ "," +:+ JSString.join "," (map storedText (m' :: l))).
    rewrite !append_assoc, append_char, parseValue_storedText.
    cbn [mbind result_bind]. cbv beta iota.
    change (JSON.skipSpace (String "," ?x)) with (String "," x). cbv iota.
    replace (4 + S (length l + fuel)) with (5 + length l + fuel) by lia.
    rewrite IH. cbn [rev map]. by rewrite <- app_assoc.
Qed.

Lemma length_storedText (m : StoredMessage) : 1 <= String.length (storedText m).
Proof. unfold storedText. rewrite append_char. cbn [String.length]. lia. Qed.

Lemma length_join_stored (l : list StoredMessage) :
  length l <= String.length (JSString.join "," (map storedText l)).
Proof.
  induction l as [|m l IH]; [done|].
  pose proof (length_storedText m) as Hm.
  destruct l as [|m' l].
  - cbn [map JSString.join length]. lia.
  - change (JSString.join "," (map storedText (m :: m' :: l)))
      with (storedText m +:+ "," +:+ JSString.join "," (map storedText (m' :: l))).
    rewrite !length_append. cbn [String.length] in *. cbn [length] in *. lia.
Qed.

(** [JSON.parse] reads a stored history back as it was written. *)
Lemma parse_historyText (l : list StoredMessage) :
  JSON.parse (historyText l) = Ok (JArray (map storedValue l)).
Proof.
  destruct l as [|m l]; [reflexivity|].
  unfold JSON.parse, historyText.
  pose proof (length_join_stored (m :: l)) as Hlen.
  rewrite append_char. cbn [String.length]. rewrite length_append.
  cbn [String.length length] in *.
  set (body := JSString.join "," (map storedText (m :: l))) in *.
  replace (2 * S (String.length body + 1) + 2)
    with (S (5 + length l + (2 * String.length body - length l))) by lia.
  assert (exists x, body +:+ "]" = String "{" x) as [x Hx].
  { subst body. destruct l; cbn [map JSString.join]; unfold storedText;
      rewrite !append_assoc, !append_char; eauto. }
  rewrite Hx.
  change (JSON.parseValue (S ?f) (String "[" (String "{" x)))
    with (JSON.parseElements f [] (String "{" x)).
  rewrite <- Hx. subst body. rewrite parseElements_stored. reflexivity.
Qed.

Lemma loadMessages_absent (w : World) :
  getItem "chatMessages" w = None \/ getItem "chatMessages" w = Some "" ->
  loadMessages w = Ok None.
Proof. unfold loadMessages. by intros [-> | ->]. Qed.

Lemma loadMessages_parse (w : World) (t : string) :
  getItem "chatMessages" w = Some t -> t <> "" ->
  loadMessages w = (parsedMessages ← JSON.parse t;
                    loaded ← loadParsed parsedMessages; Ok (Some loaded)).
Proof. unfold loadMessages. intros -> Hne. by destruct t. Qed.

Lemma loadMessage_stored (m : StoredMessage) :
  loadMessage (storedValue m) = Ok (messageOf m).
Proof.
  unfold loadMessage, messageOf, storedValue. cbn.
  destruct (String.eqb_spec (storedRole m) "ai") as [->|Hne]; reflexivity.
Qed.

Lemma loadParsed_stored (l : list StoredMessage) :
  loadParsed (JArray (map storedValue l)) = Ok (map messageOf l).
Proof.
  unfold loadParsed. induction l as [|m l IH]; [done|].
  cbn [map traverse]. rewrite loadMessage_stored. cbn [mbind result_bind].
  fold (traverse loadMessage). by rewrite IH.
Qed.

Lemma historyText_not_empty (l : list StoredMessage) : historyText l <> "".
Proof. unfold historyText. by rewrite append_char. Qed.

(** Loading a well-formed stored history gives its messages, the replies
    formatted again. *)
Lemma loadMessages_stored (w : World) (l : list StoredMessage) :
  getItem "chatMessages" w = Some (historyText l) ->
  loadMessages w = Ok (Some (map messageOf l)).
Proof.
  intros Hget. rewrite (loadMessages_parse w (historyText l) Hget (historyText_not_empty l)).
  rewrite parse_historyText. cbn [mbind result_bind]. by rewrite loadParsed_stored.
Qed.

Lemma storableMessage_unformatted (m : StoredMessage) :
  unformatted m -> storableMessage (messageOf m) = Ok (storedValue m).
Proof.
  unfold unformatted, messageOf. intros Hm.
  destruct (String.eqb_spec (storedRole m) "ai") as [Hai|Hne].
  - rewrite (Hm Hai). unfold storedValue. by rewrite Hai.
  - reflexivity.
Qed.

Lemma saveEffect_unformatted (l : list StoredMessage) (w : World) :
  Forall unformatted l ->
  saveEffect (map messageOf l) w = Ok (setItem "chatMessages" (historyText l) w).
Proof.
  intros Hl. unfold saveEffect.
  assert (traverse storableMessage (map messageOf l) = Ok (map storedValue l)) as ->.
  { induction Hl as [|m l Hm _ IH]; [done|].
    cbn [map traverse]. rewrite (storableMessage_unformatted m Hm).
    cbn [mbind result_bind]. fold (traverse storableMessage). by rewrite IH. }
  cbn [mbind result_bind]. by rewrite stringify_history.
Qed.

(** Where C4 holds.  On a profile whose stored history is well formed and
    whose replies need no formatting, the mount loads the history and
    writes the same text back, so that every later mount loads the same
    history. *)
Theorem unformatted_round_trip (random : nat -> Q) (l : list StoredMessage)
    (storage : gmap string string) (drawn : nat) :
  Forall unformatted l ->
  storage !! "chatMessages" = Some (historyText l) ->
  exists w,
    mount random storage drawn = Ok w
    /\ messages (state w) = map messageOf l
    /\ getItem "chatMessages" w = Some (historyText l).
Proof.
  intros Hl Hget. unfold mount.
  set (w0 := {| state := initialState; localStorage := storage;
                requests := []; draws := drawn |}).
  rewrite (loadMessages_stored w0 l Hget). cbn [mbind result_bind].
  change (messages (state w0)) with (map messageOf []).
  rewrite (saveEffect_unformatted [] _ (List.Forall_nil _)). cbn [mbind result_bind].
  rewrite (saveEffect_unformatted l _ Hl).
  eexists. split; [reflexivity|]. split; [reflexivity|]. apply getItem_setItem.
Qed.

(** ** Histories that can be saved *)

Lemma stringify_array (items : list js) :
  JSON.stringify (JArray items)
  = (parts ← traverse (fun x => t ← JSON.stringify x; Ok (default "null" t)) items;
     Ok (Some ("[" +:+ JSString.join "," parts +:+ "]"))).
Proof. reflexivity. Qed.

Lemma writable_array (items : list js) : Forall writable items -> writable (JArray items).
Proof.
  intros Hitems. unfold writable. rewrite stringify_array.
  assert (exists parts,
             traverse (fun x => t ← JSON.stringify x; Ok (default "null" t)) items
             = Ok parts) as [parts ->]; [|by eexists].
  induction Hitems as [|x items [t Hx] _ [parts IH]]; [by eexists|].
  cbn [traverse]. rewrite Hx. cbn [mbind result_bind].
  fold (traverse (fun x => t ← JSON.stringify x; Ok (default "null" t))).
  rewrite IH. by eexists.
Qed.

Lemma writable_array_inv (items : list js) :
  writable (JArray items) ->
  exists parts,
    traverse (fun x => t ← JSON.stringify x; Ok (default "null" t)) items = Ok parts.
Proof.
  intros [t Ht]. rewrite stringify_array in Ht.
  apply bind_Ok in Ht as (parts & Hparts & _). by eexists.
Qed.

Lemma writable_array_snoc (items : list js) (v : js) :
  writable (JArray items) -> writable v -> writable (JArray (items ++ [v])).
Proof.
  intros [parts Hparts]%writable_array_inv [t Ht]. unfold writable.
  rewrite stringify_array, traverse_snoc, Hparts. cbn [mbind result_bind].
  rewrite Ht. by eexists.
Qed.

Lemma writable_record (r : string) (c : js) :
  writable c -> writable (JObject [("role", JString r); ("content", c)]).
Proof. intros [t Ht]. unfold writable. cbn. rewrite Ht. by eexists. Qed.

Lemma writable_element (p : Paragraph) : writable (elementValue p).
Proof. unfold writable, elementValue. cbn. by eexists. Qed.

Lemma writable_children (e : JSXElement) : writable (childrenValue e).
Proof.
  destruct e as [[s|ps]].
  - by eexists.
  - apply writable_array, Forall_forall. intros v Hv%list_elem_of_In.
    apply in_map_iff in Hv as (p & <- & _). apply writable_element.
Qed.

Lemma persistable_iff (h : list Message) :
  persistable h
  <-> exists l, traverse storableMessage h = Ok l /\ writable (JArray l).
Proof.
  unfold persistable, saveEffect. split.
  - intros [t Ht].
    specialize (Ht {| state := initialState; localStorage := ∅;
                      requests := []; draws := 0 |}).
    apply bind_Ok in Ht as (l & Hl & Ht). apply bind_Ok in Ht as (o & Ho & _).
    exists l. split; [done|]. rewrite stringify_array in Ho.
    apply bind_Ok in Ho as (parts & Hparts & _). unfold writable.
    rewrite stringify_array, Hparts. by eexists.
  - intros (l & Hl & t & Ht). exists t. intros w. rewrite Hl.
    cbn [mbind result_bind]. by rewrite Ht.
Qed.

Lemma persistable_snoc (h : list Message) (m : Message) (v : js) :
  persistable h -> storableMessage m = Ok v -> writable v -> persistable (h ++ [m]).
Proof.
  intros (l & Hl & Hw)%persistable_iff Hm Hv. apply persistable_iff.
  exists (l ++ [v]). split; [|by apply writable_array_snoc].
  rewrite traverse_snoc, Hl. cbn [mbind result_bind]. by rewrite Hm.
Qed.


Lemma persistable_user (h : list Message) (s : string) :
  persistable h -> persistable (h ++ [userMessage s]).
Proof.
  intros Hh. eapply persistable_snoc; [done|reflexivity|].
  apply writable_record. by eexists.
Qed.




(** ** Loading the history *)

(** The text of every history of stored messages is a serialized history. *)
Lemma historyText_serialized (l : list StoredMessage) : serializedHistory (historyText l).
Proof. exists l. apply parse_historyText. Qed.

(** C1, as stated, fails: the text "{" is no serialized history, and a mount
    on a profile that holds it throws the [SyntaxError] of [JSON.parse]. *)
Lemma malformed_payload_throws :
  ~ serializedHistory "{"
  /\ mount halves {["chatMessages" := "{"]} 0 = Throw SyntaxError.
Proof.
  split; [|reflexivity]. intros [stored Hparse]. vm_compute in Hparse. discriminate.
Qed.

(** C1, amended.  With nothing stored under 'chatMessages', or the empty
    string, the mount completes with the empty history.  A stored text that
    is not empty and that [JSON.parse] rejects makes the mount throw that
    [SyntaxError]; one that parses to a value other than an array makes it
    throw a [TypeError].  Nothing is discarded on the way. *)
Theorem load_on_mount (random : nat -> Q) (storage : gmap string string) (drawn : nat) :
  (storage !! "chatMessages" = None \/ storage !! "chatMessages" = Some "" ->
   exists w, mount random storage drawn = Ok w /\ messages (state w) = [])
  /\ (forall t,
         storage !! "chatMessages" = Some t -> t <> "" ->
         JSON.parse t = Throw SyntaxError ->
         mount random storage drawn = Throw SyntaxError)
  /\ (forall t v,
         storage !! "chatMessages" = Some t -> t <> "" ->
         JSON.parse t = Ok v -> (forall items, v <> JArray items) ->
         mount random storage drawn = Throw TypeError).
Proof.
  set (w0 := {| state := initialState; localStorage := storage;
                requests := []; draws := drawn |}).
  split; [|split].
  - intros Habsent. unfold mount. fold w0.
    rewrite (loadMessages_absent w0) by done. simpl.
    eexists. split; [reflexivity|].
    unfold initSessionId. by destruct (getItem "chatSessionId" w0) as [[|c s]|].
  - intros t Ht Hne Hparse. unfold mount. fold w0.
    rewrite (loadMessages_parse w0 t) by done. by rewrite Hparse.
  - intros t v Ht Hne Hparse Hv. unfold mount. fold w0.
    rewrite (loadMessages_parse w0 t) by done. rewrite Hparse.
    destruct v; simpl; try done. by destruct (Hv items).
Qed.

Lemma load_on_mount_witness :
  (exists w, mount halves ∅ 0 = Ok w /\ messages (state w) = [])
  /\ mount halves {["chatMessages" := "[1,"]} 0 = Throw SyntaxError
  /\ mount halves {["chatMessages" := "{}"]} 0 = Throw TypeError.
Proof.
  split; [|split].
  - apply (load_on_mount halves ∅ 0). left. reflexivity.
  - apply (load_on_mount halves {["chatMessages" := "[1,"]} 0) with (t := "[1,");
      [reflexivity|discriminate|reflexivity].
  - apply (load_on_mount halves {["chatMessages" := "{}"]} 0) with (t := "{}") (v := JObject []);
      [reflexivity|discriminate|reflexivity|discriminate].
Defined.

(** ** Saving the history *)

(** C2.  The save writes a string for the content of a user message and of
    an assistant message whose fragment holds one text.  For an assistant
    message in several paragraphs, here the reply "a", line feed, "b", it
    writes [props.children] as it is, an array of paragraph element
    objects: the stored content is not a string and nothing is joined. *)
Theorem multi_block_content_not_flattened :
  (forall s, storableContent (Raw (JString s)) = Ok (JString s))
  /\ (forall s, storableContent (Element (Fragment (TextChild s))) = Ok (JString s))
  /\ let reply := "a" +:+ JSString.LF +:+ "b" in
     let history := [aiMessage (formatText reply)] in
     blocks (formatText reply) = ["a"; "b"]
     /\ forall w,
         exists t,
           saveEffect history w = Ok (setItem "chatMessages" t w)
           /\ JSON.parse t
              = Ok (JArray
                      [JObject
                         [("role", JString "ai");
                          ("content", JArray [elementValue (paragraph 0 "a");
                                              elementValue (paragraph 1 "b")])]]).
Proof.
  split; [done|]. split; [done|]. split; [reflexivity|].
  intros w. eexists. split; [reflexivity|]. vm_compute. reflexivity.
Qed.

(** ** Reloading the history *)

(** C4.  A profile holds one assistant message of 101 letters, stored as
    the save effect stores a text.  The load formats it into one block, the
    text with a period, as a fragment that holds an array of one
    paragraph.  The save that follows writes that array, not the text, and
    the next load turns it into the single block "[object Object]": the
    history of the second mount is not the history of the first.  (For
    replies that the formatter leaves as one text the round trip does hold:
    [unformatted_round_trip].) *)
Theorem single_block_round_trip_lost :
  let reply := string_of_list_ascii (repeat "a"%char 101) in
  let storage :=
    {["chatMessages" := historyText [{| storedRole := "ai"; storedContent := reply |}]]}
    : gmap string string in
  let first := mount halves storage 0 in
  let second := reload halves first in
  blocks (formatText reply) = [reply +:+ "."]
  /\ history first = Ok [aiMessage (formatText reply)]
  /\ history second = Ok [aiMessage (Fragment (TextChild "[object Object]"))]
  /\ history second <> history first.
Proof.
  intros reply storage first second.
  assert (history first = Ok [aiMessage (formatText reply)]) as E1
    by (vm_compute; reflexivity).
  assert (history second = Ok [aiMessage (Fragment (TextChild "[object Object]"))]) as E2
    by (vm_compute; reflexivity).
  split; [vm_compute; reflexivity|]. split; [done|]. split; [done|].
  rewrite E1, E2. vm_compute. discriminate.
Qed.

(** ** A first exchange *)

(** C7.  On a fresh profile the mount leaves an empty history.  Submitting
    "Hello" appends the user message at once, sends one request that
    carries the text and the session id, and stores the history of one
    message.  The reply whose output is "Hi there." then makes the history
    the user message followed by the assistant message that holds this
    text unchanged, and both are stored, the content of each as a string.
    A reply whose [output] is missing or is the empty string appends the
    formatted fallback text "AI response received" in its place. *)
Theorem first_exchange (props : ChatProps) (random : nat -> Q) (drawn : nat) :
  (exists w0 w1 w2,
      mount random ∅ drawn = Ok w0
      /\ messages (state w0) = []
      /\ submit props (onChange "Hello" w0) = Ok w1
      /\ messages (state w1) = [userMessage "Hello"]
      /\ map message (requests w1) = ["Hello"]
      /\ map requestSessionId (requests w1) = [generateSessionId random drawn]
      /\ storedHistory w1
         = Ok (JArray [storedValue {| storedRole := "user"; storedContent := "Hello" |}])
      /\ receive (Resolved (JObject [("output", JString "Hi there.")])) w1 = Ok w2
      /\ messages (state w2)
         = [userMessage "Hello"; aiMessage (Fragment (TextChild "Hi there."))]
      /\ formatText "Hi there." = Fragment (TextChild "Hi there.")
      /\ storedHistory w2
         = Ok (JArray [storedValue {| storedRole := "user"; storedContent := "Hello" |};
                       storedValue {| storedRole := "ai"; storedContent := "Hi there." |}]))
  /\ (forall data output st,
         JS.get data "output" = Ok output ->
         output = JUndefined \/ output = JString "" ->
         settle (Resolved data) st
         = Ok (setMessages
                 (fun prev => prev ++ [aiMessage (formatText "AI response received")]) st)).
Proof.
  split.
  - do 3 eexists. split; [reflexivity|]. split; [reflexivity|].
    split; [reflexivity|]. split; [reflexivity|]. split; [reflexivity|].
    split; [reflexivity|]. split; [vm_compute; reflexivity|].
    split; [reflexivity|]. split; [reflexivity|]. split; [reflexivity|].
    vm_compute. reflexivity.
  - intros data output st Hget Hout. unfold settle, formattedReply. rewrite Hget.
    by destruct Hout as [-> | ->].
Qed.

Lemma first_exchange_witness :
  settle (Resolved (JObject [("status", JString "ok")])) initialState
  = Ok (setMessages
          (fun prev => prev ++ [aiMessage (Fragment (TextChild "AI response received"))])
          initialState).
Proof.
  destruct (first_exchange defaultProps halves 0) as [_ Hfallback].
  apply (Hfallback (JObject [("status", JString "ok")]) JUndefined initialState).
  - reflexivity.
  - left. reflexivity.
Defined.

(** * Further properties of the formatter and of the widget *)

(** ** The three cases of the formatter *)

Lemma split_from_not_nil sep skip cur s : JSString.split_from sep skip cur s <> [].
Proof.
  revert skip cur. induction s as [|c s IH]; intros skip cur; cbn [JSString.split_from]; [done|].
  destruct skip; [|apply IH]. destruct (String.prefix sep (String c s)); [done|apply IH].
Qed.

Lemma split_from_absent sep cur s :
  stringIncludes s sep = false ->
  JSString.split_from sep 0 cur s = [string_of_list_ascii (rev cur) +:+ s].
Proof.
  revert cur. induction s as [|c s IH]; intros cur; cbn [stringIncludes JSString.split_from].
  - intros _. by rewrite append_empty_r.
  - intros [Hp Hs]%orb_false_elim. rewrite Hp, (IH _ Hs). cbn [rev].
    by rewrite string_of_list_ascii_snoc.
Qed.

Lemma split_absent sep s : stringIncludes s sep = false -> JSString.split sep s = [s].
Proof. intros H. unfold JSString.split. by rewrite split_from_absent. Qed.

Lemma split_from_present sep cur s :
  sep <> "" ->
  stringIncludes s sep = true ->
  2 <= length (JSString.split_from sep 0 cur s).
Proof.
  intros Hsep. revert cur.
  induction s as [|c s IH]; intros cur; cbn [stringIncludes JSString.split_from].
  - by destruct sep.
  - destruct (String.prefix sep (String c s)) eqn:Hp.
    + intros _. cbn [length].
      pose proof (split_from_not_nil sep (String.length sep - 1) [] s) as Hne.
      destruct (JSString.split_from sep (String.length sep - 1) [] s); [done|].
      cbn [length]. lia.
    + cbn [orb]. intros Hs. by apply IH.
Qed.

Lemma length_imap_paragraph (l : list string) : length (imap paragraph l) = length l.
Proof. apply length_imap. Qed.

Lemma blocks_imap (l : list string) :
  blocks (Fragment (ArrayChild (imap paragraph l))) = l.
Proof.
  cbn [blocks]. unfold paragraph.
  assert (forall (f : nat -> nat) l, map text (imap (fun i line => {| key := f i; className := "mb-2 last:mb-0"; text := line |}) l) = l) as H.
  { intros f l0. revert f. induction l0 as [|x l0 IH]; intros f; [done|].
    cbn [imap map text]. f_equal. apply (IH (f ∘ S)). }
  apply (H id).
Qed.

Lemma keys_imap (l : list string) :
  map key (imap paragraph l) = seq 0 (length l).
Proof.
  unfold paragraph.
  assert (forall n l, map key (imap (fun i line => {| key := n + i; className := "mb-2 last:mb-0"; text := line |}) l) = seq n (length l)) as H.
  { intros n l0. revert n. induction l0 as [|x l0 IH]; intros n; [done|].
    cbn [imap map key length seq]. rewrite Nat.add_0_r. f_equal.
    rewrite <- (IH (S n)). f_equal. apply imap_ext. intros i y _. cbn. f_equal. lia. }
  apply (H 0).
Qed.

(** What [formatText] returns, by its three cases. *)
Lemma formatText_cases (s : string) :
  let lines := nonBlankLines s in
  let sentences := map sentence (JSString.split ". " s) in
  formatText s
  = if 1 <? length lines then Fragment (ArrayChild (imap paragraph lines))
    else if (1 <? length sentences) || (100 <? String.length s)
         then Fragment (ArrayChild (imap paragraph sentences))
         else Fragment (TextChild s).
Proof. reflexivity. Qed.

(** X1.  The formatter leaves a text as it is, one plain text, exactly when
    the text has at most one non-blank line, does not contain ". " and has
    at most 100 characters; in every other case it returns paragraphs, at
    least one. *)
Theorem formatText_unformatted_iff (s : string) :
  (formatText s = Fragment (TextChild s)
   <-> length (nonBlankLines s) <= 1
       /\ stringIncludes s ". " = false
       /\ String.length s <= 100)
  /\ (formatText s = Fragment (TextChild s)
      \/ exists ps, formatText s = Fragment (ArrayChild ps) /\ 1 <= length ps).
Proof.
  rewrite formatText_cases. cbv zeta.
  destruct (Nat.ltb_spec 1 (length (nonBlankLines s))) as [Hl|Hl].
  { split.
    - split; [intros [=]|]. intros (H & _). lia.
    - right. eexists. split; [reflexivity|]. rewrite length_imap_paragraph. lia. }
  rewrite length_map.
  assert (1 <= length (JSString.split ". " s)) as Hparts.
  { pose proof (split_from_not_nil ". " 0 [] s) as Hnil.
    fold (JSString.split ". " s) in Hnil.
    destruct (JSString.split ". " s); [done|cbn [length]; lia]. }
  destruct (stringIncludes s ". ") eqn:Hinc.
  - pose proof (split_from_present ". " [] s ltac:(done) Hinc) as H2.
    fold (JSString.split ". " s) in H2.
    destruct (Nat.ltb_spec 1 (length (JSString.split ". " s))) as [_|H1]; [|lia].
    cbn [orb]. split.
    + split; [intros [=]|]. by intros (_ & ? & _).
    + right. eexists. split; [reflexivity|].
      by rewrite length_imap_paragraph, length_map.
  - rewrite (split_absent ". " s Hinc) in Hparts |- *. cbn [length].
    change (1 <? 1) with false. cbn [orb].
    destruct (Nat.ltb_spec 100 (String.length s)) as [H|H].
    + split.
      * split; [intros [=]|]. intros (_ & _ & ?). lia.
      * right. eexists. split; [reflexivity|]. done.
    + split; [|by left]. split; [|done]. intros _. repeat split; [lia|lia].
Qed.

(** X2.  A formatted reply is never empty: it shows at least one block.
    Its paragraphs carry the keys 0, 1, 2, ... in order, and all have the
    same class. *)
Theorem formatText_blocks (s : string) :
  1 <= length (blocks (formatText s))
  /\ map key (paragraphsOf (formatText s))
     = seq 0 (length (paragraphsOf (formatText s)))
  /\ Forall (fun p => className p = "mb-2 last:mb-0") (paragraphsOf (formatText s)).
Proof.
  rewrite formatText_cases. cbv zeta.
  assert (forall l, Forall (fun p => className p = "mb-2 last:mb-0") (imap paragraph l)) as Hc.
  { intros l. apply Forall_forall. intros p (i & x & -> & _)%elem_of_lookup_imap. done. }
  destruct (Nat.ltb_spec 1 (length (nonBlankLines s))) as [Hl|Hl].
  - rewrite blocks_imap. cbn [paragraphsOf]. rewrite keys_imap, length_imap.
    split; [lia|]. split; [done|apply Hc].
  - destruct ((1 <? length (map sentence (JSString.split ". " s)))
              || (100 <? String.length s)).
    + rewrite blocks_imap. cbn [paragraphsOf]. rewrite keys_imap, length_imap, length_map.
      pose proof (split_from_not_nil ". " 0 [] s) as Hne.
      fold (JSString.split ". " s) in Hne.
      destruct (JSString.split ". " s); [done|]. cbn [length].
      split; [lia|]. split; [done|apply Hc].
    + cbn. split; [lia|]. split; [done|constructor].
Qed.

(** *** Sentences *)

Lemma endsWith_append (s suffix : string) : JSString.endsWith (s +:+ suffix) suffix = true.
Proof.
  induction s as [|c s IH].
  - change ("" +:+ suffix) with suffix. rewrite endsWith_unfold.
    by rewrite String.eqb_refl.
  - rewrite append_cons, endsWith_unfold, IH. apply orb_true_r.
Qed.

Lemma trimEnd_period (t : string) :
  JSString.endsWith t "." = true -> JSString.trimEnd t = t.
Proof.
  induction t as [|c t IH]; [done|].
  rewrite endsWith_unfold. destruct t as [|d t].
  - destruct (String.eqb_spec (String c "") ".") as [[= ->]|_]; [done|].
    cbn. done.
  - destruct (String.eqb_spec (String c (String d t)) ".") as [[=]|_].
    cbn [orb]. intros H. specialize (IH H).
    cbn [JSString.trimEnd] in IH |- *. rewrite IH. done.
Qed.

Lemma trimStart_idempotent (s : string) :
  JSString.trimStart (JSString.trimStart s) = JSString.trimStart s.
Proof.
  induction s as [|c s IH]; [done|]. cbn [JSString.trimStart].
  destruct (JSString.isWhiteSpace c) eqn:Hc; [done|].
  cbn [JSString.trimStart]. by rewrite Hc.
Qed.

Lemma trimStart_trim_append (s x : string) :
  JSString.trimStart x = x ->
  JSString.trimStart (JSString.trim s +:+ x) = JSString.trim s +:+ x.
Proof.
  intros Hx. unfold JSString.trim.
  destruct (JSString.trimStart s) as [|c t] eqn:E; [done|].
  apply trimStart_cons in E. cbn [JSString.trimEnd].
  destruct (JSString.trimEnd t) as [|d r]; rewrite ?E, append_cons;
    cbn [JSString.trimStart]; by rewrite E.
Qed.

(** A block of a sentence split ends with a period and has no whitespace
    around it. *)
Lemma sentence_shape (s : string) :
  JSString.endsWith (sentence s) "." = true
  /\ JSString.trim (sentence s) = sentence s.
Proof.
  assert (JSString.endsWith (sentence s) "." = true) as Hend.
  { unfold sentence. destruct (JSString.endsWith s ".") eqn:Hs.
    - rewrite append_empty_r. unfold JSString.trim.
      rewrite <- endsWith_period_trimStart in Hs.
      by rewrite (trimEnd_period _ Hs).
    - apply endsWith_append. }
  split; [done|]. unfold JSString.trim at 1.
  assert (JSString.trimStart (sentence s) = sentence s) as ->.
  { unfold sentence. apply trimStart_trim_append.
    by destruct (JSString.endsWith s "."). }
  by apply trimEnd_period.
Qed.

(** X4.  In the sentence split, every block ends with a period and has no
    whitespace around it. *)
Theorem sentence_blocks (s : string) :
  length (nonBlankLines s) <= 1 ->
  stringIncludes s ". " = true \/ 100 < String.length s ->
  blocks (formatText s) = map sentence (JSString.split ". " s)
  /\ Forall (fun b => JSString.endsWith b "." = true /\ JSString.trim b = b)
            (blocks (formatText s)).
Proof.
  intros Hl Hmode. rewrite formatText_cases. cbv zeta.
  destruct (Nat.ltb_spec 1 (length (nonBlankLines s))) as [|_]; [lia|].
  assert ((1 <? length (map sentence (JSString.split ". " s)))
          || (100 <? String.length s) = true) as ->.
  { destruct Hmode as [Hinc|Hlen].
    - pose proof (split_from_present ". " [] s ltac:(done) Hinc) as H2.
      fold (JSString.split ". " s) in H2. rewrite length_map.
      destruct (Nat.ltb_spec 1 (length (JSString.split ". " s))); [done|lia].
    - destruct (Nat.ltb_spec 100 (String.length s)); [apply orb_true_r|lia]. }
  rewrite blocks_imap. split; [done|].
  apply Forall_forall. intros b Hb%list_elem_of_In.
  apply in_map_iff in Hb as (x & <- & _). apply sentence_shape.
Qed.

(** *** Lines *)

Lemma existsb_rev_false {A} (f : A -> bool) (l : list A) :
  existsb f l = false -> existsb f (rev l) = false.
Proof.
  induction l as [|x l IH]; [done|]. cbn [existsb rev].
  intros [Hx Hl]%orb_false_elim. rewrite existsb_app, (IH Hl). cbn. by rewrite Hx.
Qed.

Lemma split_from_char (c : ascii) (s : string) :
  forall cur,
    existsb (Ascii.eqb c) cur = false ->
    Forall (fun piece => hasChar c piece = false)
           (JSString.split_from (String c "") 0 cur s).
Proof.
  induction s as [|d s IH]; intros cur Hcur; cbn [JSString.split_from].
  - constructor; [|constructor]. unfold hasChar.
    rewrite list_ascii_of_string_of_list_ascii. by apply existsb_rev_false.
  - cbn [String.prefix String.length Nat.sub].
    destruct (ascii_dec c d) as [->|Hne].
    + replace (String.prefix "" s) with true by (by destruct s).
      constructor.
      * unfold hasChar. rewrite list_ascii_of_string_of_list_ascii.
        by apply existsb_rev_false.
      * by apply IH.
    + apply IH. cbn [existsb]. rewrite Hcur.
      destruct (Ascii.eqb_spec c d); [done|done].
Qed.

(** X3.  With two non-blank lines or more, the blocks are the non-blank lines, in
    their order and as they stand: none holds a line feed, none is blank,
    and none is trimmed. *)
Theorem line_blocks (s : string) :
  1 < length (nonBlankLines s) ->
  blocks (formatText s) = nonBlankLines s
  /\ Forall (fun b => hasChar LFchar b = false /\ allWhiteSpace b = false)
            (blocks (formatText s)).
Proof.
  intros Hl. rewrite formatText_cases. cbv zeta.
  destruct (Nat.ltb_spec 1 (length (nonBlankLines s))) as [_|]; [|lia].
  rewrite blocks_imap. split; [done|].
  unfold nonBlankLines. apply Forall_forall. intros b [Hb Hin]%list_elem_of_filter.
  split.
  - pose proof (split_from_char LFchar s [] eq_refl) as Hall.
    rewrite Forall_forall in Hall. by apply Hall.
  - destruct (allWhiteSpace b) eqn:E; [|done]. by apply trim_allWhiteSpace in E.
Qed.

Lemma traverse_Ok {A B} (f : A -> result B) (l : list A) :
  Forall (fun x => exists y, f x = Ok y) l -> exists ys, traverse f l = Ok ys.
Proof.
  induction 1 as [|x l [y Hy] _ [ys IH]]; [by eexists|].
  cbn [traverse]. rewrite Hy. cbn [mbind result_bind]. fold (traverse f). rewrite IH.
  by eexists.
Qed.

Lemma toString_convertible (v : js) :
  JS.modelled v = true -> convertible v = true -> exists s, JS.toString v = Ok s.
Proof.
  induction v as [| |b|n|s|items IH|fields IH] using js_induction;
    cbn [JS.modelled convertible JS.toString]; intros Hm Hc.
  - by eexists.
  - by eexists.
  - destruct b; by eexists.
  - rewrite Hm. by eexists.
  - by eexists.
  - match goal with |- context [traverse ?f items] =>
      destruct (traverse_Ok f items) as [parts ->]; [|by eexists]
    end.
    rewrite forallb_forall in Hm, Hc. rewrite Forall_forall in IH |- *.
    intros x Hx. pose proof Hx as Hin%list_elem_of_In.
    destruct (IH x Hx (Hm x Hin) (Hc x Hin)) as [s Hs].
    destruct x; try by eexists.
  - apply negb_true_iff in Hc. rewrite Hc. by eexists.
Qed.

(** X6.  [formatResponse] returns for every value in which no object
    reached through arrays has an own [toString] property; [null] and
    [undefined] are formatted as the empty text, an object with an own
    [toString] makes it throw a [TypeError]. *)
Theorem formatResponse_coercion :
  (forall v, JS.modelled v = true -> convertible v = true ->
             exists e, formatResponse v = Ok e)
  /\ formatResponse JNull = Ok (Fragment (TextChild ""))
  /\ formatResponse JUndefined = Ok (Fragment (TextChild ""))
  /\ (forall fields, JS.hasOwn "toString" fields = true ->
                     formatResponse (JObject fields) = Throw TypeError)
  /\ (forall fields, JS.hasOwn "toString" fields = false ->
                     formatResponse (JObject fields)
                     = Ok (Fragment (TextChild "[object Object]"))).
Proof.
  split; [|split; [done|split; [done|split]]].
  - intros v Hm Hc. unfold formatResponse.
    assert (exists s, safeText v = Ok s) as [s ->].
    { destruct (toString_convertible v Hm Hc) as [s Hs]. destruct v; by eexists. }
    by eexists.
  - intros fields H. unfold formatResponse, safeText. cbn [JS.toString]. by rewrite H.
  - intros fields H. unfold formatResponse, safeText. cbn [JS.toString]. by rewrite H.
Qed.

(** ** The run of the widget *)



Lemma initSessionId_messages (random : nat -> Q) (w : World) :
  messages (state (initSessionId random w)) = messages (state w).
Proof. unfold initSessionId. by destruct (getItem "chatSessionId" w) as [[|c s]|]. Qed.


Lemma initSessionId_kept (random : nat -> Q) (w : World) :
  getItem "chatSessionId" (initSessionId random w)
  = Some (sessionId (state (initSessionId random w)))
  /\ requests (initSessionId random w) = requests w.
Proof.
  unfold initSessionId. destruct (getItem "chatSessionId" w) as [[|c s]|] eqn:E.
  - split; [apply getItem_setItem|done].
  - split; [exact E|done].
  - split; [apply getItem_setItem|done].
Qed.

Lemma saveEffect_sessionKept (h : list Message) (w w' : World) :
  sessionKept w -> saveEffect h w = Ok w' ->
  sessionKept w' /\ sessionId (state w') = sessionId (state w)
  /\ requests w' = requests w.
Proof.
  intros [Hid Hreq] (Hst & _ & Hrq & Hkeep & _)%saveEffect_storage.
  unfold sessionKept. rewrite Hst, Hrq, Hkeep by done. done.
Qed.

(** X9.  One session id for the whole run: after a mount that completes the
    id in the state is the id in storage, and from then on, across typing,
    submissions and settled requests, it stays so, the id never changes,
    and every request sent carries it. *)
Theorem one_session_id (props : ChatProps) (random : nat -> Q) :
  (forall storage drawn w, mount random storage drawn = Ok w -> sessionKept w)
  /\ (forall w w',
         sessionKept w -> submit props w = Ok w' ->
         sessionKept w' /\ sessionId (state w') = sessionId (state w))
  /\ (forall o w w',
         sessionKept w -> receive o w = Ok w' ->
         sessionKept w' /\ sessionId (state w') = sessionId (state w)
         /\ requests w' = requests w)
  /\ (forall value w, sessionKept w -> sessionKept (onChange value w)).
Proof.
  split; [|split; [|split]].
  - intros storage drawn w. unfold mount.
    set (w0 := {| state := initialState; localStorage := storage;
                  requests := []; draws := drawn |}).
    intros (loaded & _ & (w2 & Hsave & Hrest)%bind_Ok)%bind_Ok.
    assert (sessionKept (initSessionId random w0)) as H1.
    { destruct (initSessionId_kept random w0) as [Hid Hreq].
      split; [done|]. rewrite Hreq. constructor. }
    destruct (saveEffect_sessionKept _ _ _ H1 Hsave) as (H2 & _ & _).
    destruct loaded as [h|]; [|by (cbv beta iota in Hrest; injection Hrest as <-)].
    assert (sessionKept (withState (setMessages (fun _ => h) (state w2)) w2)) as H3
      by exact H2.
    by destruct (saveEffect_sessionKept _ _ _ H3 Hrest) as (H4 & _ & _).
  - intros w w' Hw. unfold submit, sendMessage.
    destruct (JSString.trim (input (state w)) =? "")%string; [by intros [= <-]|].
    intros Hsave.
    eapply saveEffect_sessionKept in Hsave as (H1 & H2 & _); [done|].
    destruct Hw as [Hid Hreq]. split; [exact Hid|].
    cbn [requests post state withState sessionId setInput setMessages].
    apply Forall_app. split; [done|]. by constructor.
  - intros o w w' Hw. unfold receive. intros (st & Hst & Hsave)%bind_Ok.
    assert (sessionId st = sessionId (state w)) as Hsid.
    { destruct o as [data|error]; cbn [settle] in Hst.
      - destruct (formattedReply data); [| |done]; by injection Hst as <-.
      - by injection Hst as <-. }
    eapply saveEffect_sessionKept in Hsave as (H1 & H2 & H3).
    + split; [done|]. split; [by rewrite H2|done].
    + destruct Hw as [Hid Hreq]. split; cbn [state withState requests]; by rewrite Hsid.
  - intros value w [Hid Hreq]. done.
Qed.

(** X15.  A submission cannot be repeated by accident: the handler clears
    the input field, so submitting again at once changes nothing. *)
Theorem submit_twice (props : ChatProps) (w w' : World) :
  submit props w = Ok w' -> submit props w' = Ok w'.
Proof.
  unfold submit, sendMessage.
  destruct (JSString.trim (input (state w)) =? "")%string eqn:E.
  - intros [= <-]. by rewrite E.
  - intros (Hst & _)%saveEffect_storage. rewrite Hst. done.
Qed.

(** X16.  What a submission sends: one request, to the configured URL, with
    the text as it was typed (not trimmed) and the session id of the state;
    the Authorization header is there exactly when an API key is
    configured.  The input field is then empty. *)
Theorem submission_request (props : ChatProps) (w w' : World) :
  allWhiteSpace (input (state w)) = false ->
  submit props w = Ok w' ->
  requests w'
  = requests w ++ [{| url := webhookUrl props;
                      message := input (state w);
                      requestSessionId := sessionId (state w);
                      authorization :=
                        if (apiKey props =? "")%string then None
                        else Some ("Bearer " +:+ apiKey props) |}]
  /\ input (state w') = ""
  /\ messages (state w') = messages (state w) ++ [userMessage (input (state w))]
  /\ draws w' = draws w.
Proof.
  intros Hin. unfold submit, sendMessage.
  destruct (String.eqb_spec (JSString.trim (input (state w))) "") as [Ht|_].
  { apply trim_empty_iff in Ht. congruence. }
  intros (Hst & Hdr & Hrq & _)%saveEffect_storage.
  rewrite Hst, Hdr, Hrq. done.
Qed.

(** X17.  Replies at the edges.  A body that is [null] makes the [try] block
    throw, and the history gains one message of role 'ai' with the text
    "Error: Could not reach AI".  An [output] that is falsy (missing,
    [null], [false], 0 or the empty string) is replaced by the fallback text
    "AI response received", which is what the message of role 'ai' added to
    the history holds.  A body that is a string has no [output] and takes
    the fallback too.  An [output] that is a non-empty string is formatted
    as it is.  In each case the history keeps what it held and the rest of
    the state is as it was. *)
Theorem reply_edge_cases (st : ChatState) :
  settle (Resolved JNull) st
  = Ok {| messages :=
            messages st
            ++ [{| role := JString "ai";
                   content := Element (Fragment (TextChild "Error: Could not reach AI")) |}];
          input := input st; isOpen := isOpen st; sessionId := sessionId st |}
  /\ (forall data output,
         JS.get data "output" = Ok output -> JS.truthy output = false ->
         settle (Resolved data) st
         = Ok {| messages :=
                   messages st
                   ++ [{| role := JString "ai";
                          content := Element (Fragment (TextChild "AI response received")) |}];
                 input := input st; isOpen := isOpen st; sessionId := sessionId st |})
  /\ (forall body,
         settle (Resolved (JString body)) st
         = Ok {| messages :=
                   messages st
                   ++ [{| role := JString "ai";
                          content := Element (Fragment (TextChild "AI response received")) |}];
                 input := input st; isOpen := isOpen st; sessionId := sessionId st |})
  /\ (forall data s,
         JS.get data "output" = Ok (JString s) -> s <> "" ->
         settle (Resolved data) st
         = Ok {| messages :=
                   messages st
                   ++ [{| role := JString "ai"; content := Element (formatText s) |}];
                 input := input st; isOpen := isOpen st; sessionId := sessionId st |}).
Proof.
  split; [reflexivity|]. split; [|split; [reflexivity|]].
  - intros data output Hget Hfalsy. unfold settle, formattedReply.
    rewrite Hget. cbn [mbind result_bind]. by rewrite Hfalsy.
  - intros data s Hget Hs. unfold settle, formattedReply.
    rewrite Hget. cbn [mbind result_bind JS.truthy].
    destruct (String.eqb_spec s "") as [->|_]; done.
Qed.

(** X18.  The gate on a group claim that is not a list.  A falsy claim
    ([null], the empty string, 0, [false]) is taken as no groups: denied.
    A non-empty string is searched for the substring 'admin'.  Any other
    value (a number, [true], an object) has no [includes]: the page throws
    a [TypeError]. *)
Theorem gate_on_other_claims (f : Auth.Fetch) :
  (JS.truthy (groupsClaim (resolveSession f)) = false ->
   ProtectedPage f = Ok accessDenied)
  /\ (forall s, groupsClaim (resolveSession f) = JString s -> s <> "" ->
                ProtectedPage f
                = Ok (if stringIncludes s "admin" then welcome else accessDenied))
  /\ (forall n, groupsClaim (resolveSession f) = JNumber n -> n <> 0%Z ->
                ProtectedPage f = Throw TypeError)
  /\ (groupsClaim (resolveSession f) = JBool true -> ProtectedPage f = Throw TypeError)
  /\ (forall fields, groupsClaim (resolveSession f) = JObject fields ->
                     ProtectedPage f = Throw TypeError).
Proof.
  unfold ProtectedPage, groupsOf. repeat split.
  - by intros ->.
  - intros s -> Hs. cbn [JS.truthy]. destruct (String.eqb_spec s "") as [|_]; [done|].
    cbn. by destruct (stringIncludes s "admin").
  - intros n -> Hn. cbn [JS.truthy]. destruct (Z.eqb_spec n 0); done.
  - by intros ->.
  - by intros fields ->.
Qed.

(** ** Stored histories *)

Lemma writable_stored (m : StoredMessage) :
  exists v, storableMessage (messageOf m) = Ok v /\ writable v.
Proof.
  unfold messageOf. destruct (storedRole m =? "ai")%string.
  - eexists. split; [reflexivity|]. apply writable_record, writable_children.
  - eexists. split; [reflexivity|].
    unfold writable. cbn. by eexists.
Qed.

Lemma persistable_stored (l : list StoredMessage) : persistable (map messageOf l).
Proof.
  apply persistable_iff.
  assert (exists vs, traverse storableMessage (map messageOf l) = Ok vs
                     /\ Forall writable vs) as (vs & Hvs & Hw).
  { induction l as [|m l (vs & Hvs & Hw)]; [by exists []|].
    destruct (writable_stored m) as (v & Hv & Hwv).
    exists (v :: vs). cbn [map traverse]. rewrite Hv. cbn [mbind result_bind].
    fold (traverse storableMessage). rewrite Hvs. split; [done|by constructor]. }
  exists vs. split; [done|by apply writable_array].
Qed.

(** X13.  A well-formed stored history always loads.  When the text under
    'chatMessages' is the JSON text of a list of [{role, content}] records
    with string fields, the mount completes and the history has one message
    for each record, in the same order: a record of role 'ai' as the
    formatted content, any other record with its role and its text as they
    are. *)
Theorem stored_history_loads (random : nat -> Q) (l : list StoredMessage)
    (storage : gmap string string) (drawn : nat) :
  storage !! "chatMessages" = Some (historyText l) ->
  exists w,
    mount random storage drawn = Ok w
    /\ messages (state w) = map messageOf l
    /\ length (messages (state w)) = length l.
Proof.
  intros Hget. unfold mount.
  set (w0 := {| state := initialState; localStorage := storage;
                requests := []; draws := drawn |}).
  rewrite (loadMessages_stored w0 l Hget). cbn [mbind result_bind].
  destruct (persistable_stored []) as [t0 Ht0]. rewrite Ht0. cbn [mbind result_bind].
  destruct (persistable_stored l) as [t Ht]. rewrite Ht.
  eexists. split; [reflexivity|]. split; [reflexivity|].
  cbn [state setItem withState setMessages messages]. apply length_map.
Qed.

(** X14.  Short plain replies survive a reload.  On a profile whose stored
    history is well formed, and whose replies the formatter leaves as one
    text, a mount loads the history and a second mount on what the first
    left loads the same history. *)
Theorem plain_history_survives_reload (random random' : nat -> Q)
    (l : list StoredMessage) (storage : gmap string string) (drawn : nat) :
  Forall unformatted l ->
  storage !! "chatMessages" = Some (historyText l) ->
  history (mount random storage drawn) = Ok (map messageOf l)
  /\ history (reload random' (mount random storage drawn)) = Ok (map messageOf l).
Proof.
  intros Hl Hget.
  destruct (unformatted_round_trip random l storage drawn Hl Hget) as (w & Hw & Hm & Hs).
  rewrite Hw. cbn [history reload mbind result_bind]. rewrite Hm. split; [done|].
  destruct (unformatted_round_trip random' l (localStorage w) (draws w) Hl Hs)
    as (w2 & Hw2 & Hm2 & _).
  rewrite Hw2. cbn [mbind result_bind]. by rewrite Hm2.
Qed.

(** ** The digits of a session id *)

Lemma hexDraw_value (r : Q) :
  (0 <= r < 1)%Q ->
  hexDraw r = String (JSON.hexDigit (Z.to_N (Qfloor (r * 16)))) "".
Proof.
  intros Hr%floor_of_draw. unfold hexDraw.
  generalize dependent (Qfloor (r * 16)). intros z [Hlo Hhi].
  destruct z as [|p|p]; [reflexivity| |lia].
  repeat match goal with
         | q : positive |- _ => destruct q; try lia
         end; reflexivity.
Qed.

Lemma get_join_chars (l : list ascii) (i : nat) :
  String.get i (JSString.join "" (map (fun c => String c "") l)) = l !! i.
Proof.
  revert i. induction l as [|c l IH]; intros i; [done|].
  destruct l as [|d l].
  - destruct i as [|[|i]]; done.
  - change (JSString.join "" (map (fun c => String c "") (c :: d :: l)))
      with (String c (JSString.join "" (map (fun c => String c "") (d :: l)))).
    destruct i as [|i]; [done|]. cbn [String.get]. apply IH.
Qed.

(** X7.  The digits of a session id are the draws, in order: with
    [Math.random] in [0, 1), the character at position [i] of the id is the
    hexadecimal digit of the integer part of 16 times the [i]-th draw. *)
Theorem generateSessionId_digits (random : nat -> Q) (from i : nat) :
  (forall j, (0 <= random j < 1)%Q) ->
  i < 32 ->
  String.get i (generateSessionId random from)
  = Some (JSON.hexDigit (Z.to_N (Qfloor (random (from + i) * 16)))).
Proof.
  intros Hrandom Hi. unfold generateSessionId.
  rewrite (map_ext _ (fun j => String (JSON.hexDigit (Z.to_N (Qfloor (random (from + j) * 16)))) ""))
    by (intros j; apply hexDraw_value, Hrandom).
  rewrite <- (map_map (fun j => JSON.hexDigit (Z.to_N (Qfloor (random (from + j) * 16))))
                      (fun c => String c "")).
  rewrite get_join_chars.
  change (map ?f ?l) with (f <$> l). rewrite list_lookup_fmap.
  rewrite lookup_seq_lt by done. done.
Qed.

(** ** The session id at mount, and the other keys *)

Lemma initSessionId_missing (random : nat -> Q) (w : World) :
  getItem "chatSessionId" w = None \/ getItem "chatSessionId" w = Some "" ->
  let id := generateSessionId random (draws w) in
  sessionId (state (initSessionId random w)) = id
  /\ getItem "chatSessionId" (initSessionId random w) = Some id
  /\ draws (initSessionId random w) = draws w + 32.
Proof.
  intros H id. unfold initSessionId.
  destruct H as [-> | ->]; (split; [done|split; [apply getItem_setItem|done]]).
Qed.

(** X8.  A profile without a session id gets one at mount.  When the key
    'chatSessionId' is absent, or holds the empty string, a mount that
    completes has drawn 32 numbers, and the id made of them is the id of
    the state and the id in storage. *)
Theorem missing_session_id_generated (random : nat -> Q)
    (storage : gmap string string) (drawn : nat) (w : World) :
  storage !! "chatSessionId" = None \/ storage !! "chatSessionId" = Some "" ->
  mount random storage drawn = Ok w ->
  sessionId (state w) = generateSessionId random drawn
  /\ getItem "chatSessionId" w = Some (generateSessionId random drawn)
  /\ draws w = drawn + 32.
Proof.
  intros Hid. unfold mount.
  set (w0 := {| state := initialState; localStorage := storage;
                requests := []; draws := drawn |}).
  destruct (initSessionId_missing random w0 Hid) as (H1 & H2 & H3).
  intros (loaded & _ & (w2 & Hsave & Hrest)%bind_Ok)%bind_Ok.
  apply saveEffect_storage in Hsave as (Hst & Hdr & _ & Hkeep & _).
  destruct loaded as [h|].
  - apply saveEffect_storage in Hrest as (Hst' & Hdr' & _ & Hkeep' & _).
    rewrite Hst', Hdr', Hkeep' by done. unfold getItem in *. cbn in *.
    rewrite Hst, Hdr, Hkeep by done. done.
  - injection Hrest as <-. rewrite Hst, Hdr, Hkeep by done. done.
Qed.

(** X10.  The widget writes two keys and no other: a key other than
    'chatMessages' and 'chatSessionId' holds after a mount, a submission or
    a settled request what it held before. *)
Theorem other_keys_untouched (props : ChatProps) (random : nat -> Q) (k : string) :
  k <> "chatMessages" -> k <> "chatSessionId" ->
  (forall storage drawn w, mount random storage drawn = Ok w -> getItem k w = storage !! k)
  /\ (forall w w', submit props w = Ok w' -> getItem k w' = getItem k w)
  /\ (forall o w w', receive o w = Ok w' -> getItem k w' = getItem k w).
Proof.
  intros Hm Hs. split; [|split].
  - intros storage drawn w. unfold mount.
    set (w0 := {| state := initialState; localStorage := storage;
                  requests := []; draws := drawn |}).
    intros (loaded & _ & (w2 & Hsave & Hrest)%bind_Ok)%bind_Ok.
    apply saveEffect_storage in Hsave as (_ & _ & _ & Hkeep & _).
    assert (getItem k (initSessionId random w0) = storage !! k) as Hinit.
    { unfold initSessionId. destruct (getItem "chatSessionId" w0) as [[|c s]|];
        try done; by apply getItem_setItem_ne. }
    destruct loaded as [h|].
    + apply saveEffect_storage in Hrest as (_ & _ & _ & Hkeep' & _).
      rewrite Hkeep' by done. unfold getItem in *. cbn in *.
      rewrite Hkeep by done. done.
    + injection Hrest as <-. rewrite Hkeep by done. done.
  - intros w w'. unfold submit, sendMessage.
    destruct (JSString.trim (input (state w)) =? "")%string; [by intros [= <-]|].
    intros (_ & _ & _ & Hkeep & _)%saveEffect_storage. by rewrite Hkeep.
  - intros o w w'. unfold receive. intros (st & _ & Hsave)%bind_Ok.
    apply saveEffect_storage in Hsave as (_ & _ & _ & Hkeep & _). by rewrite Hkeep.
Qed.

(** ** Instances *)

Lemma mount_without_history (random : nat -> Q) (storage : gmap string string)
    (drawn : nat) :
  storage !! "chatMessages" = None -> exists w, mount random storage drawn = Ok w.
Proof.
  intros Hnone. unfold mount.
  set (w0 := {| state := initialState; localStorage := storage;
                requests := []; draws := drawn |}).
  rewrite (loadMessages_absent w0) by (by left).
  cbn [mbind result_bind]. destruct (persistable_stored []) as [t Ht].
  change (messages (state w0)) with (map messageOf []). rewrite Ht. by eexists.
Qed.

Lemma persistable_nil : persistable [].
Proof. apply (persistable_stored []). Qed.

Lemma line_blocks_witness :
  blocks (formatText ("line one" +:+ JSString.LF +:+ "line two")) = ["line one"; "line two"].
Proof.
  destruct (line_blocks ("line one" +:+ JSString.LF +:+ "line two")) as [H _].
  - vm_compute. lia.
  - rewrite H. reflexivity.
Defined.

Lemma sentence_as_specified_witness :
  sentence "Check n8n setup." = sentenceAsSpecified "Check n8n setup.".
Proof. apply (sentence_as_specified "Check n8n setup."). reflexivity. Defined.

Lemma formatResponse_coercion_witness :
  exists e, formatResponse (JArray [JNumber 1; JNull; JBool false]) = Ok e.
Proof.
  destruct formatResponse_coercion as [H _].
  apply (H (JArray [JNumber 1; JNull; JBool false])); reflexivity.
Defined.



Lemma one_session_id_witness :
  exists w, mount halves ∅ 0 = Ok w /\ sessionKept w.
Proof.
  destruct (mount_without_history halves ∅ 0) as [w Hw]; [reflexivity|].
  exists w. split; [exact Hw|].
  destruct (one_session_id defaultProps halves) as [H _].
  exact (H ∅ 0 w Hw).
Defined.

Lemma submit_returns (props : ChatProps) (w : World) :
  persistable (messages (state w)) -> exists w', submit props w = Ok w'.
Proof.
  intros Hw. unfold submit, sendMessage.
  destruct (JSString.trim (input (state w)) =? "")%string; [by eexists|].
  pose proof (persistable_user _ (input (state w)) Hw) as [t Ht].
  cbn [state withState post messages setInput setMessages]. rewrite Ht. by eexists.
Qed.

Lemma submit_twice_witness :
  exists w',
    submit defaultProps (typed "Hello") = Ok w'
    /\ submit defaultProps w' = Ok w'
    /\ map message (requests w') = ["Hello"]
    /\ messages (state w') = [userMessage "Hello"].
Proof.
  destruct (submit_returns defaultProps (typed "Hello") persistable_nil) as [w' Hw'].
  exists w'. split; [exact Hw'|].
  split; [exact (submit_twice defaultProps (typed "Hello") w' Hw')|].
  revert Hw'. unfold submit, sendMessage.
  change (JSString.trim (input (state (typed "Hello"))) =? "")%string with false.
  cbv iota. intros (-> & _ & -> & _)%saveEffect_storage. split; reflexivity.
Defined.

Lemma sentence_blocks_witness :
  blocks (formatText "First sentence. Second sentence.")
  = ["First sentence."; "Second sentence."].
Proof.
  destruct (sentence_blocks "First sentence. Second sentence.") as [H _].
  - vm_compute. lia.
  - left. reflexivity.
  - rewrite H. reflexivity.
Defined.

Lemma submission_request_witness :
  exists w', submit defaultProps (typed " hi ") = Ok w'
             /\ map message (requests w') = [" hi "]
             /\ input (state w') = "".
Proof.
  destruct (submit_returns defaultProps (typed " hi ") persistable_nil) as (w' & Hw').
  exists w'. split; [exact Hw'|].
  destruct (submission_request defaultProps (typed " hi ") w' eq_refl Hw')
    as (Hreq & Hin & _).
  split; [|exact Hin]. rewrite Hreq. reflexivity.
Defined.

Lemma reply_edge_cases_witness :
  settle (Resolved (JObject [("output", JNumber 0)])) initialState
  = Ok {| messages :=
            [{| role := JString "ai";
                content := Element (Fragment (TextChild "AI response received")) |}];
          input := ""; isOpen := false; sessionId := "" |}.
Proof.
  destruct (reply_edge_cases initialState) as (_ & H & _).
  apply (H (JObject [("output", JNumber 0)]) (JNumber 0)); reflexivity.
Defined.

Lemma gate_on_other_claims_witness :
  ProtectedPage
    (Auth.Resolves
       {| Auth.tokens :=
            Some {| Auth.idToken :=
                      Some {| Auth.payload := [("cognito:groups", JNumber 7)] |} |} |})
  = Throw TypeError.
Proof.
  match goal with |- ProtectedPage ?f = _ =>
    destruct (gate_on_other_claims f) as (_ & _ & H & _)
  end.
  apply (H 7%Z); [reflexivity|discriminate].
Defined.

Lemma stored_history_loads_witness :
  exists w,
    mount halves {["chatMessages" := historyText twoStored]} 0 = Ok w
    /\ messages (state w) = map messageOf twoStored
    /\ length (messages (state w)) = 2.
Proof.
  apply (stored_history_loads halves twoStored {["chatMessages" := historyText twoStored]} 0).
  reflexivity.
Defined.

Lemma plain_history_survives_reload_witness :
  history (reload halves (mount halves {["chatMessages" := historyText twoStored]} 0))
  = Ok (map messageOf twoStored).
Proof.
  apply (plain_history_survives_reload halves halves twoStored
           {["chatMessages" := historyText twoStored]} 0).
  - repeat constructor.
  - reflexivity.
Defined.

Lemma generateSessionId_digits_witness :
  String.get 0 (generateSessionId halves 0) = Some "8"%char.
Proof.
  apply (generateSessionId_digits halves 0 0).
  - intros j. split; [discriminate|reflexivity].
  - lia.
Defined.

Lemma missing_session_id_generated_witness :
  exists w, mount halves ∅ 0 = Ok w
            /\ sessionId (state w) = generateSessionId halves 0.
Proof.
  destruct (mount_without_history halves ∅ 0) as [w Hw]; [reflexivity|].
  exists w. split; [exact Hw|].
  apply (missing_session_id_generated halves ∅ 0 w); [by left|exact Hw].
Defined.

Lemma other_keys_untouched_witness :
  exists w, mount halves {["theme" := "dark"]} 0 = Ok w
            /\ getItem "theme" w = Some "dark".
Proof.
  destruct (mount_without_history halves {["theme" := "dark"]} 0) as [w Hw]; [reflexivity|].
  exists w. split; [exact Hw|].
  destruct (other_keys_untouched defaultProps halves "theme") as [H _];
    [discriminate|discriminate|].
  rewrite (H {["theme" := "dark"]} 0 w Hw). reflexivity.
Defined.

(** * The session id across reloads *)

(** ** What is written is read back *)

Lemma traverse_map_Ok {A B} (f : A -> result B) (g : A -> B) (l : list A) :
  Forall (fun x => f x = Ok (g x)) l -> traverse f l = Ok (map g l).
Proof.
  induction 1 as [|x l Hx _ IH]; [done|].
  cbn [traverse map]. rewrite Hx. cbn [mbind result_bind]. fold (traverse f).
  by rewrite IH.
Qed.

Lemma omap_id_Some {A B} (f : A -> B) (l : list A) :
  omap id (map (fun x => Some (f x)) l) = map f l.
Proof. induction l as [|x l IH]; [done|]. cbn. by rewrite IH. Qed.

Lemma stringify_plain (v : js) :
  plainJSON v = true -> JSON.stringify v = Ok (Some (textOf v)).
Proof.
  induction v as [| |b|n|s|items IH|fields IH] using js_induction;
    cbn [plainJSON]; intros Hv; try done.
  - by destruct b.
  - cbn [JSON.stringify textOf].
    rewrite (traverse_map_Ok _ textOf items).
    + done.
    + rewrite forallb_forall in Hv. rewrite Forall_forall in IH |- *.
      intros x Hx. rewrite (IH x Hx); [done|]. by apply Hv, list_elem_of_In.
  - apply andb_prop in Hv as [[Hv _]%andb_prop _].
    cbn [JSON.stringify textOf].
    rewrite (traverse_map_Ok _
               (fun kv => Some (JSON.quote (fst kv) +:+ ":" +:+ textOf (snd kv))) fields).
    + cbn [mbind result_bind]. by rewrite omap_id_Some.
    + rewrite forallb_forall in Hv. rewrite Forall_forall in IH |- *.
      intros kv Hkv. rewrite (IH kv Hkv); [done|]. by apply Hv, list_elem_of_In.
Qed.

Lemma textOf_head (v : js) :
  plainJSON v = true -> exists c t, textOf v = String c t /\ In c startChars.
Proof.
  destruct v as [| |[]|n|s|items|fields]; cbn [plainJSON textOf]; intros Hv; try done.
  - exists "n"%char, "ull". split; [done|]. cbn. tauto.
  - exists "t"%char, "rue". split; [done|]. cbn. tauto.
  - exists "f"%char, "alse". split; [done|]. cbn. tauto.
  - eexists _, _. split; [reflexivity|]. cbn. tauto.
  - rewrite append_char. eexists _, _. split; [reflexivity|]. cbn. tauto.
  - rewrite append_char. eexists _, _. split; [reflexivity|]. cbn. tauto.
Qed.

Lemma parseValue_array (fuel : nat) (c : ascii) (t : string) :
  In c startChars ->
  JSON.parseValue (S fuel) (String "[" (String c t)) = JSON.parseElements fuel [] (String c t).
Proof.
  intros Hc. cbn in Hc.
  repeat (destruct Hc as [<-|Hc]; [reflexivity|]). destruct Hc.
Qed.

Lemma parseValue_object (fuel : nat) (k rest : string) :
  JSON.parseValue (S fuel) (String "{" (JSON.quote k +:+ rest))
  = JSON.parseMembers fuel [] (JSON.quote k +:+ rest).
Proof. unfold JSON.quote. rewrite append_cons. reflexivity. Qed.

Lemma setProperty_new (k : string) (v : js) (fields : list (string * js)) :
  ~ In k (map fst fields) -> JSON.setProperty k v fields = fields ++ [(k, v)].
Proof.
  induction fields as [|[k' v'] fields IH]; [done|].
  cbn [map fst In JSON.setProperty app]. intros Hk.
  destruct (String.eqb_spec k' k) as [->|_]; [tauto|].
  rewrite IH; [done|tauto].
Qed.

Lemma join_cons2 (sep x y : string) (l : list string) :
  JSString.join sep (x :: y :: l) = x +:+ sep +:+ JSString.join sep (y :: l).
Proof. reflexivity. Qed.

Lemma parseElements_plain (items : list js) :
  Forall readsBack items -> forallb plainJSON items = true ->
  forall (x : js) (acc : list js) (fuel : nat) (rest : string),
    readsBack x -> plainJSON x = true ->
    S (nodes x + fold_right (fun y n => S (nodes y + n)) 0 items) <= fuel ->
    JSON.parseElements fuel acc
      (JSString.join "," (map textOf (x :: items)) +:+ String "]" rest)
    = Ok (JArray (rev acc ++ x :: items), rest).
Proof.
  induction 1 as [|y items Hy _ IH]; intros Hitems x acc fuel rest Hx Hpx Hfuel.
  - destruct fuel as [|fuel]; [lia|]. cbn [fold_right] in Hfuel.
    rewrite parseElements_S. cbn [map JSString.join].
    rewrite (Hx Hpx); [|lia]. reflexivity.
  - destruct fuel as [|fuel]; [lia|]. cbn [fold_right] in Hfuel.
    cbn [forallb] in Hitems. apply andb_prop in Hitems as [Hpy Hitems].
    rewrite parseElements_S. cbn [map]. rewrite join_cons2.
    rewrite !append_assoc, append_char, (Hx Hpx); [|lia].
    cbn [mbind result_bind]. cbv beta iota.
    change (JSON.skipSpace (String "," ?z)) with (String "," z). cbv iota.
    change (textOf y :: map textOf items) with (map textOf (y :: items)).
    rewrite (IH Hitems y (x :: acc) fuel rest Hy Hpy); [|lia].
    cbn [rev]. by rewrite <- app_assoc.
Qed.

Lemma parseMembers_plain (fields : list (string * js)) :
  Forall (fun kv => readsBack (snd kv)) fields ->
  forall (kv : string * js) (acc : list (string * js)) (fuel : nat) (rest : string),
    readsBack (snd kv) ->
    forallb (fun kv => plainJSON (snd kv)) (kv :: fields) = true ->
    forallb (fun kv => negb (JSON.isArrayIndex (fst kv))) (kv :: fields) = true ->
    NoDup (map fst acc ++ map fst (kv :: fields)) ->
    S (nodes (snd kv) + fold_right (fun y n => S (nodes (snd y) + n)) 0 fields) <= fuel ->
    JSON.parseMembers fuel acc
      (JSString.join "," (map fieldText (kv :: fields)) +:+ String "}" rest)
    = Ok (JObject (acc ++ kv :: fields), rest).
Proof.
  induction 1 as [|kv' fields Hy _ IH]; intros [k v] acc fuel rest Hx Hplain Hindex Hdup Hfuel;
    cbn [fst snd] in *.
  - destruct fuel as [|fuel]; [lia|]. cbn [fold_right] in Hfuel.
    cbn [forallb fst snd] in Hplain, Hindex.
    apply andb_prop in Hplain as [Hpx _]. apply andb_prop in Hindex as [Hk _].
    apply negb_true_iff in Hk.
    cbn [map JSString.join]. unfold fieldText at 1. cbn [fst snd].
    rewrite !append_assoc, append_char, parseMembers_quote.
    rewrite (Hx Hpx); [|lia]. cbn [mbind result_bind]. cbv beta iota. rewrite Hk.
    cbv zeta. change (JSON.skipSpace (String "}" ?z)) with (String "}" z). cbv iota.
    rewrite setProperty_new; [done|].
    cbn [map fst] in Hdup. apply NoDup_app in Hdup as (_ & Hdup & _).
    intros Hin. apply (Hdup k); [by apply list_elem_of_In|]. apply list_elem_of_In. by left.
  - destruct fuel as [|fuel]; [lia|]. cbn [fold_right] in Hfuel.
    cbn [forallb fst snd] in Hplain, Hindex.
    apply andb_prop in Hplain as [Hpx Hplain]. apply andb_prop in Hindex as [Hk Hindex].
    apply negb_true_iff in Hk.
    cbn [map]. rewrite join_cons2. unfold fieldText at 1. cbn [fst snd].
    rewrite !append_assoc, !append_char, parseMembers_quote.
    rewrite (Hx Hpx); [|lia]. cbn [mbind result_bind]. cbv beta iota. rewrite Hk.
    cbv zeta. change (JSON.skipSpace (String "," ?z)) with (String "," z). cbv iota.
    change (fieldText kv' :: map fieldText fields) with (map fieldText (kv' :: fields)).
    assert (~ In k (map fst acc)) as Hnew.
    { cbn [map fst] in Hdup. apply NoDup_app in Hdup as (_ & Hdup & _).
      intros Hin. apply (Hdup k); [by apply list_elem_of_In|]. apply list_elem_of_In. by left. }
    rewrite (setProperty_new k v acc Hnew).
    rewrite (IH kv' (acc ++ [(k, v)]) fuel rest Hy Hplain Hindex); [by rewrite <- app_assoc| |lia].
    rewrite map_app. cbn [map fst]. rewrite <- app_assoc. exact Hdup.
Qed.

(** The parser reads back the text of every plain value, given fuel for its
    nodes. *)
Lemma parseValue_plain (v : js) : readsBack v.
Proof.
  induction v as [| |b|n|s|items IH|fields IH] using js_induction;
    unfold readsBack; cbn [plainJSON]; intros Hv fuel rest Hfuel; try done.
  - destruct fuel as [|fuel]; [cbn in Hfuel; lia|reflexivity].
  - destruct fuel as [|fuel]; [cbn in Hfuel; lia|]. by destruct b.
  - destruct fuel as [|fuel]; [cbn in Hfuel; lia|]. apply parseValue_quote.
  - destruct fuel as [|fuel]; [cbn in Hfuel; lia|]. cbn [nodes] in Hfuel.
    destruct items as [|x items]; [reflexivity|].
    apply Forall_cons in IH as [Hx IH].
    cbn [forallb] in Hv. apply andb_prop in Hv as [Hpx Hv].
    cbn [textOf]. rewrite !append_assoc, !append_char.
    destruct (textOf_head x Hpx) as (c & t & Hhead & Hc).
    assert (exists t', JSString.join "," (map textOf (x :: items)) +:+ String "]" rest
                       = String c t') as [t' Ht'].
    { destruct items as [|y items]; cbn [map].
      - cbn [JSString.join]. rewrite Hhead, append_cons. eauto.
      - rewrite join_cons2, Hhead, !append_cons. eauto. }
    rewrite Ht', (parseValue_array fuel c t' Hc), <- Ht'.
    cbn [fold_right] in Hfuel.
    rewrite (parseElements_plain items IH Hv x [] fuel rest Hx Hpx); [done|lia].
  - destruct fuel as [|fuel]; [cbn in Hfuel; lia|]. cbn [nodes] in Hfuel.
    apply andb_prop in Hv as [[Hplain Hdup]%andb_prop Hindex].
    apply bool_decide_eq_true in Hdup.
    destruct fields as [|kv fields]; [reflexivity|].
    apply Forall_cons in IH as [Hx IH].
    cbn [textOf]. rewrite !append_assoc, !append_char.
    change (map (fun kv => JSON.quote (fst kv) +:+ ":" +:+ textOf (snd kv)) (kv :: fields))
      with (map fieldText (kv :: fields)).
    assert (exists t', JSString.join "," (map fieldText (kv :: fields)) +:+ String "}" rest
                       = JSON.quote (fst kv) +:+ t') as [t' Ht'].
    { destruct fields as [|y fields]; cbn [map].
      - cbn [JSString.join]. unfold fieldText. rewrite !append_assoc. eauto.
      - rewrite join_cons2. unfold fieldText at 1. rewrite !append_assoc. eauto. }
    rewrite Ht', parseValue_object, <- Ht'.
    cbn [fold_right] in Hfuel.
    rewrite (parseMembers_plain fields IH kv [] fuel rest Hx Hplain Hindex Hdup); [done|lia].
Qed.

Lemma length_quote (s : string) : 2 <= String.length (JSON.quote s).
Proof. unfold JSON.quote. cbn [String.length]. rewrite length_append. cbn. lia. Qed.

Lemma nodes_join {A} (sz : A -> nat) (txt : A -> string) (l : list A) :
  Forall (fun x => sz x <= String.length (txt x)) l ->
  fold_right (fun x n => S (sz x + n)) 0 l
  <= String.length (JSString.join "," (map txt l)) + 1.
Proof.
  induction 1 as [|x l Hx Hl IH]; [cbn; lia|].
  destruct l as [|y l].
  - cbn [map JSString.join fold_right]. lia.
  - cbn [map] in *. rewrite join_cons2, !length_append.
    cbn [fold_right String.length] in *. lia.
Qed.

(** The fuel [JSON.parse] starts with is enough: a text is at least as long
    as its value has nodes. *)
Lemma nodes_textOf (v : js) : plainJSON v = true -> nodes v <= String.length (textOf v).
Proof.
  induction v as [| |b|n|s|items IH|fields IH] using js_induction;
    cbn [plainJSON]; intros Hv; try done.
  - cbn. lia.
  - destruct b; cbn; lia.
  - pose proof (length_quote s). cbn [nodes textOf]. lia.
  - cbn [nodes textOf]. rewrite append_char. cbn [String.length]. rewrite length_append.
    cbn [String.length].
    pose proof (nodes_join nodes textOf items) as Hsum.
    enough (fold_right (fun x n => S (nodes x + n)) 0 items
            <= String.length (JSString.join "," (map textOf items)) + 1) by lia.
    apply Hsum. rewrite forallb_forall in Hv. rewrite Forall_forall in IH |- *.
    intros x Hx. apply (IH x Hx). by apply Hv, list_elem_of_In.
  - apply andb_prop in Hv as [[Hv _]%andb_prop _].
    cbn [nodes textOf]. rewrite append_char. cbn [String.length]. rewrite length_append.
    cbn [String.length].
    change (map (fun kv => JSON.quote (fst kv) +:+ ":" +:+ textOf (snd kv)) fields)
      with (map fieldText fields).
    enough (fold_right (fun kv n => S (nodes (snd kv) + n)) 0 fields
            <= String.length (JSString.join "," (map fieldText fields)) + 1) by lia.
    apply (nodes_join (fun kv => nodes (snd kv)) fieldText).
    rewrite forallb_forall in Hv. rewrite Forall_forall in IH |- *.
    intros kv Hkv. unfold fieldText. rewrite !length_append.
    specialize (IH kv Hkv (Hv kv (proj1 (list_elem_of_In _ _) Hkv))). lia.
Qed.

(** [JSON.parse] reads back what [JSON.stringify] wrote. *)
Lemma parse_textOf (v : js) : plainJSON v = true -> JSON.parse (textOf v) = Ok v.
Proof.
  intros Hv. unfold JSON.parse.
  pose proof (nodes_textOf v Hv) as Hsize.
  rewrite <- (append_empty_r (textOf v)) at 2.
  rewrite (parseValue_plain v Hv); [done|lia].
Qed.

(** ** Histories of the widget *)

Lemma plainJSON_element (p : Paragraph) : plainJSON (elementValue p) = true.
Proof. reflexivity. Qed.

Lemma plainJSON_children (e : JSXElement) : plainJSON (childrenValue e) = true.
Proof.
  destruct e as [[s|ps]]; [done|]. cbn [childrenValue plainJSON].
  induction ps as [|p ps IH]; [done|]. cbn [map forallb].
  by rewrite plainJSON_element, IH.
Qed.

Lemma plainJSON_written (m : Message) : widgetMessage m -> plainJSON (writtenValue m) = true.
Proof.
  intros [r c|e]; [reflexivity|].
  unfold writtenValue. cbn [role content plainJSON forallb snd].
  rewrite plainJSON_children. reflexivity.
Qed.

Lemma plainJSON_history (h : list Message) :
  Forall widgetMessage h -> plainJSON (JArray (map writtenValue h)) = true.
Proof.
  cbn [plainJSON]. induction 1 as [|m h Hm _ IH]; [done|].
  cbn [map forallb]. by rewrite (plainJSON_written m Hm), IH.
Qed.

Lemma storableMessage_widget (m : Message) :
  widgetMessage m -> storableMessage m = Ok (writtenValue m).
Proof. by intros [r c|e]. Qed.

(** The save effect writes the text of a widget history. *)
Lemma saveEffect_widget (h : list Message) (w : World) :
  Forall widgetMessage h ->
  saveEffect h w = Ok (setItem "chatMessages" (writtenText h) w).
Proof.
  intros Hh. unfold saveEffect.
  rewrite (traverse_map_Ok storableMessage writtenValue h).
  - cbn [mbind result_bind]. by rewrite (stringify_plain _ (plainJSON_history h Hh)).
  - eapply Forall_impl; [exact Hh|]. apply storableMessage_widget.
Qed.

Lemma toString_elements (ps : list Paragraph) :
  exists s, JS.toString (JArray (map elementValue ps)) = Ok s.
Proof.
  cbn [JS.toString].
  rewrite (traverse_map_Ok _ (fun _ => "[object Object]") (map elementValue ps)).
  - by eexists.
  - apply Forall_forall. intros x Hx%list_elem_of_In.
    apply in_map_iff in Hx as (p & <- & _). reflexivity.
Qed.

Lemma formatResponse_children (e : JSXElement) :
  exists e', formatResponse (childrenValue e) = Ok e'.
Proof.
  destruct e as [[s|ps]]; [by eexists|].
  unfold formatResponse, childrenValue, safeText.
  destruct (toString_elements ps) as [s ->]. by eexists.
Qed.

(** Loading what was written for a widget message gives a widget message:
    a reply is formatted again, from its text or from the text
    [String] makes of its paragraphs. *)
Lemma loadMessage_widget (m : Message) :
  widgetMessage m ->
  exists m', loadMessage (writtenValue m) = Ok m' /\ widgetMessage m'.
Proof.
  intros [r c|e]; unfold loadMessage, writtenValue; cbn [role content].
  - change (JS.get (JObject [("role", JString r); ("content", JString c)]) "role")
      with (Ok (JString r) : result js).
    cbn [mbind result_bind].
    destruct (isString "ai" (JString r)) eqn:E.
    + eexists. split; [reflexivity|].
      assert (r = "ai") as ->.
      { unfold isString in E. by apply String.eqb_eq in E. }
      constructor.
    + eexists. split; [reflexivity|]. constructor.
  - change (JS.get (JObject [("role", JString "ai"); ("content", childrenValue e)]) "role")
      with (Ok (JString "ai") : result js).
    cbn [mbind result_bind].
    change (isString "ai" (JString "ai")) with true. cbv iota.
    change (JS.get (JObject [("role", JString "ai"); ("content", childrenValue e)]) "content")
      with (Ok (childrenValue e) : result js).
    cbn [mbind result_bind].
    destruct (formatResponse_children e) as [e' ->].
    eexists. split; [reflexivity|]. constructor.
Qed.

Lemma loadParsed_widget (h : list Message) :
  Forall widgetMessage h ->
  exists h', loadParsed (JArray (map writtenValue h)) = Ok h' /\ Forall widgetMessage h'.
Proof.
  unfold loadParsed. induction 1 as [|m h Hm _ (h' & IH & Hh')]; [by exists []|].
  destruct (loadMessage_widget m Hm) as (m' & Hload & Hm').
  cbn [map traverse]. rewrite Hload. cbn [mbind result_bind].
  fold (traverse loadMessage). rewrite IH. exists (m' :: h'). split; [done|]. by constructor.
Qed.

Lemma writtenText_not_empty (h : list Message) : writtenText h <> "".
Proof. unfold writtenText. cbn [textOf]. by rewrite append_char. Qed.

Lemma loadMessages_widget (w : World) :
  widgetProfile (localStorage w) ->
  exists loaded,
    loadMessages w = Ok loaded
    /\ forall h, loaded = Some h -> Forall widgetMessage h.
Proof.
  intros [Hnone|[Hempty|(h & Hh & Hget)]].
  - exists None. split; [apply loadMessages_absent; by left|done].
  - exists None. split; [apply loadMessages_absent; by right|done].
  - destruct (loadParsed_widget h Hh) as (h' & Hload & Hh').
    exists (Some h'). split; [|by intros ? [= <-]].
    rewrite (loadMessages_parse w (writtenText h) Hget (writtenText_not_empty h)).
    unfold writtenText. rewrite (parse_textOf _ (plainJSON_history h Hh)).
    cbn [mbind result_bind]. by rewrite Hload.
Qed.

(** A mount on a profile of the widget completes; its history is made of
    widget messages and its text is in storage; the session id is as the
    effect on mount settled it. *)
Lemma mount_widget (random : nat -> Q) (storage : gmap string string) (drawn : nat) :
  widgetProfile storage ->
  let w0 := {| state := initialState; localStorage := storage;
               requests := []; draws := drawn |} in
  exists w,
    mount random storage drawn = Ok w
    /\ Forall widgetMessage (messages (state w))
    /\ getItem "chatMessages" w = Some (writtenText (messages (state w)))
    /\ getItem "chatSessionId" w = getItem "chatSessionId" (initSessionId random w0)
    /\ sessionId (state w) = sessionId (state (initSessionId random w0))
    /\ draws w = draws (initSessionId random w0).
Proof.
  intros Hprofile w0. unfold mount. fold w0.
  destruct (loadMessages_widget w0 Hprofile) as (loaded & -> & Hloaded).
  cbn [mbind result_bind].
  rewrite (saveEffect_widget (messages (state w0)) _ (List.Forall_nil _)).
  cbn [mbind result_bind].
  destruct loaded as [h|].
  - rewrite (saveEffect_widget h _ (Hloaded h eq_refl)).
    eexists. split; [reflexivity|]. split; [exact (Hloaded h eq_refl)|].
    split; [apply getItem_setItem|]. split; [|done].
    rewrite getItem_setItem_ne by done.
    change (getItem "chatSessionId" (withState ?st ?w)) with (getItem "chatSessionId" w).
    by rewrite getItem_setItem_ne.
  - eexists. split; [reflexivity|].
    cbn [state setItem]. rewrite initSessionId_messages.
    split; [constructor|]. split; [apply getItem_setItem|]. split; [|done].
    by rewrite getItem_setItem_ne.
Qed.

Lemma settle_Ok (o : Outcome) (st st' : ChatState) :
  settle o st = Ok st' ->
  exists e, st' = setMessages (fun prev => prev ++ [aiMessage e]) st.
Proof.
  destruct o as [data|error]; cbn [settle].
  - destruct (formattedReply data) as [e| |]; [| |done]; intros [= <-]; by eexists.
  - intros [= <-]. by eexists.
Qed.

Lemma widgetMessage_snoc (h : list Message) (m : Message) :
  Forall widgetMessage h -> widgetMessage m -> Forall widgetMessage (h ++ [m]).
Proof. intros Hh Hm. apply Forall_app. split; [done|]. by constructor. Qed.

Lemma settled_profile (id : string) (w : World) :
  settled id w -> widgetProfile (localStorage w).
Proof. intros (Hh & Hget & _). right. right. by eexists. Qed.

(** A reload of a widget at rest completes and keeps its session id. *)
Lemma settled_mount (random : nat -> Q) (id : string) (w : World) :
  settled id w ->
  exists w', mount random (localStorage w) (draws w) = Ok w'
             /\ settled id w' /\ draws w' = draws w.
Proof.
  intros Hw. pose proof Hw as (_ & _ & Hid & _ & Hne).
  destruct (mount_widget random (localStorage w) (draws w) (settled_profile id w Hw))
    as (w' & Hmount & Hh & Hget & Hstored & Hstate & Hdraws).
  rewrite (initSessionId_stored random
             {| state := initialState; localStorage := localStorage w;
                requests := []; draws := draws w |} id Hid Hne)
    in Hstored, Hstate, Hdraws.
  exists w'. split; [done|]. split; [|done]. split; [done|]. split; [done|].
  split; [by rewrite Hstored|]. done.
Qed.

(** Every step keeps the widget at rest on the same session id. *)
Lemma settled_step (props : ChatProps) (id : string) (w w' : World) :
  settled id w -> step props w w' -> settled id w'.
Proof.
  intros Hw Hstep. pose proof Hw as (Hh & Hget & Hid & Hst & Hne).
  destruct Hstep as [value w|w w' Hsubmit|o w w' Hreceive|random w w' Hmount].
  - done.
  - revert Hsubmit. unfold submit, sendMessage.
    destruct (JSString.trim (input (state w)) =? "")%string; [by intros [= <-]|].
    cbn [state withState post messages setInput setMessages].
    rewrite saveEffect_widget
      by (apply widgetMessage_snoc; [done|constructor]).
    intros [= <-]. split; [by apply widgetMessage_snoc; [|constructor]|].
    split; [apply getItem_setItem|]. split; [|done].
    by rewrite getItem_setItem_ne.
  - revert Hreceive. unfold receive.
    intros (st & (e & ->)%settle_Ok & Hsave)%bind_Ok. revert Hsave.
    cbn [messages setMessages].
    rewrite saveEffect_widget
      by (apply widgetMessage_snoc; [done|constructor]).
    intros [= <-]. split; [by apply widgetMessage_snoc; [|constructor]|].
    split; [apply getItem_setItem|]. split; [|done].
    by rewrite getItem_setItem_ne.
  - destruct (settled_mount random id w Hw) as (w'' & Hmount' & Hw'' & _).
    rewrite Hmount in Hmount'. by injection Hmount' as <-.
Qed.

Lemma settled_run (props : ChatProps) (id : string) (w w' : World) :
  settled id w -> rtc (step props) w w' -> settled id w'.
Proof.
  intros Hw Hrun. induction Hrun as [w|w w1 w2 Hstep _ IH]; [done|].
  apply IH. by eapply settled_step.
Qed.

Lemma generateSessionId_not_empty (random : nat -> Q) (from : nat) :
  (forall i, (0 <= random i < 1)%Q) -> generateSessionId random from <> "".
Proof.
  intros Hrandom E.
  destruct (generateSessionId_format random from Hrandom) as [Hlen _].
  by rewrite E in Hlen.
Qed.

Lemma mount_settled (random : nat -> Q) (storage : gmap string string) (drawn : nat) :
  (forall i, (0 <= random i < 1)%Q) ->
  widgetProfile storage ->
  exists w,
    mount random storage drawn = Ok w
    /\ settled (sessionId (state w)) w
    /\ (storage !! "chatSessionId" = None \/ storage !! "chatSessionId" = Some "" ->
        sessionId (state w) = generateSessionId random drawn /\ draws w = drawn + 32)
    /\ (forall id, storage !! "chatSessionId" = Some id -> id <> "" ->
                   sessionId (state w) = id /\ draws w = drawn).
Proof.
  intros Hrandom Hprofile.
  destruct (mount_widget random storage drawn Hprofile)
    as (w & Hmount & Hh & Hget & Hstored & Hstate & Hdraws).
  set (w0 := {| state := initialState; localStorage := storage;
                requests := []; draws := drawn |}) in *.
  exists w. split; [done|].
  destruct (storage !! "chatSessionId") as [[|c s]|] eqn:Hid.
  - destruct (initSessionId_missing random w0) as (H1 & H2 & H3); [by right|].
    rewrite H1 in Hstate. rewrite H2 in Hstored. rewrite H3 in Hdraws.
    split; [|split; [by intros _|by intros id [= <-]]].
    repeat split; try done; [by rewrite Hstate|].
    rewrite Hstate. by apply generateSessionId_not_empty.
  - rewrite (initSessionId_stored random w0 (String c s) Hid) in Hstored, Hstate, Hdraws
      by done.
    cbn [state withState setSessionId sessionId draws] in Hstate, Hdraws.
    change (getItem "chatSessionId" w = storage !! "chatSessionId") in Hstored.
    rewrite Hid in Hstored.
    split; [|split; [by intros [|]|by intros id [= <-]]].
    repeat split; try done; [by rewrite Hstate|]. by rewrite Hstate.
  - destruct (initSessionId_missing random w0) as (H1 & H2 & H3); [by left|].
    rewrite H1 in Hstate. rewrite H2 in Hstored. rewrite H3 in Hdraws.
    split; [|split; [by intros _|by intros id [=]]].
    repeat split; try done; [by rewrite Hstate|].
    rewrite Hstate. by apply generateSessionId_not_empty.
Qed.

(** C6.  With [Math.random] returning numbers in [0, 1), every generated
    session id has 32 characters, all of them in 0-9 or a-f.  A mount on a
    profile whose history, if any, was written by the widget completes and
    leaves in storage the session id of its state: when the profile holds
    no id, or an empty one, that id is the one [generateSessionId] makes of
    the next 32 numbers drawn; when it holds one, it is that one, and no
    number is drawn.  From then on, through key strokes, submissions,
    settled requests and reloads of the page in any order, the id of the
    state and the id in storage stay that first one, and every further
    mount completes, has that id in its state, leaves it in storage and
    draws no number, whatever [Math.random] would return.  On any profile
    at all, a mount that completes on a stored id has that id in its state
    and leaves it in storage. *)
Theorem session_id_format_and_stability (props : ChatProps) (random : nat -> Q) :
  (forall i, (0 <= random i < 1)%Q) ->
  (forall from,
      String.length (generateSessionId random from) = 32
      /\ forallb isLowerHex (list_ascii_of_string (generateSessionId random from)) = true)
  /\ (forall storage drawn,
         widgetProfile storage ->
         exists w0,
           mount random storage drawn = Ok w0
           /\ getItem "chatSessionId" w0 = Some (sessionId (state w0))
           /\ (storage !! "chatSessionId" = None \/ storage !! "chatSessionId" = Some "" ->
               sessionId (state w0) = generateSessionId random drawn
               /\ draws w0 = drawn + 32)
           /\ (forall id,
                  storage !! "chatSessionId" = Some id -> id <> "" ->
                  sessionId (state w0) = id /\ draws w0 = drawn)
           /\ forall w,
               rtc (step props) w0 w ->
               sessionId (state w) = sessionId (state w0)
               /\ getItem "chatSessionId" w = Some (sessionId (state w0))
               /\ forall random',
                   exists w',
                     mount random' (localStorage w) (draws w) = Ok w'
                     /\ sessionId (state w') = sessionId (state w0)
                     /\ getItem "chatSessionId" w' = Some (sessionId (state w0))
                     /\ draws w' = draws w)
  /\ (forall random' storage drawn id w,
         storage !! "chatSessionId" = Some id -> id <> "" ->
         mount random' storage drawn = Ok w ->
         sessionId (state w) = id /\ getItem "chatSessionId" w = Some id
         /\ draws w = drawn).
Proof.
  intros Hrandom. split; [|split].
  - intros from. by apply generateSessionId_format.
  - intros storage drawn Hprofile.
    destruct (mount_settled random storage drawn Hrandom Hprofile)
      as (w0 & Hmount & Hw0 & Hnew & Hold).
    exists w0. split; [done|]. split; [by destruct Hw0 as (_ & _ & ? & _)|].
    split; [done|]. split; [done|].
    intros w Hrun.
    pose proof (settled_run props _ w0 w Hw0 Hrun) as Hw.
    pose proof Hw as (_ & _ & Hid & Hst & _).
    split; [done|]. split; [done|]. intros random'.
    destruct (settled_mount random' _ w Hw) as (w' & Hmount' & (_ & _ & Hid' & Hst' & _) & Hdr).
    by exists w'.
  - intros random' storage drawn id w Hid Hne. unfold mount.
    set (w0 := {| state := initialState; localStorage := storage;
                  requests := []; draws := drawn |}).
    rewrite (initSessionId_stored random' w0 id Hid Hne).
    intros (loaded & _ & (w2 & Hsave & Hrest)%bind_Ok)%bind_Ok. revert Hrest.
    apply saveEffect_storage in Hsave as (Hst & Hdr & _ & Hkeep & _).
    destruct loaded as [h|].
    + intros (Hst' & Hdr' & _ & Hkeep' & _)%saveEffect_storage.
      rewrite Hst', Hdr', Hkeep' by done. unfold getItem in *. simpl in *.
      rewrite Hst, Hdr, Hkeep by done. done.
    + intros [= <-]. rewrite Hst, Hdr, Hkeep by done. done.
Qed.

Lemma settled_submit (props : ChatProps) (id : string) (w : World) :
  settled id w -> exists w', submit props w = Ok w'.
Proof.
  intros (Hh & _). unfold submit, sendMessage.
  destruct (JSString.trim (input (state w)) =? "")%string; [by eexists|].
  cbn [state withState post messages setInput setMessages].
  rewrite saveEffect_widget by (apply widgetMessage_snoc; [done|constructor]).
  by eexists.
Qed.

Lemma settled_rejected (error : RequestError) (id : string) (w : World) :
  settled id w -> exists w', receive (Rejected error) w = Ok w'.
Proof.
  intros (Hh & _). unfold receive. cbn [settle mbind result_bind].
  unfold catchError. cbn [messages setMessages].
  rewrite saveEffect_widget by (apply widgetMessage_snoc; [done|constructor]).
  by eexists.
Qed.

Lemma session_id_format_and_stability_witness :
  exists w0 w1 w2 w3,
    mount halves ∅ 0 = Ok w0
    /\ submit defaultProps (onChange "Hello" w0) = Ok w1
    /\ receive (Rejected (AxiosError (Some 404%Z))) w1 = Ok w2
    /\ mount halves (localStorage w2) (draws w2) = Ok w3
    /\ sessionId (state w3) = generateSessionId halves 0
    /\ getItem "chatSessionId" w3 = Some (generateSessionId halves 0)
    /\ String.length (sessionId (state w3)) = 32.
Proof.
  assert (forall i, (0 <= halves i < 1)%Q) as Hhalves
    by (intros i; split; [discriminate|reflexivity]).
  destruct (session_id_format_and_stability defaultProps halves Hhalves)
    as (Hformat & Hrun & _).
  destruct (Hrun ∅ 0) as (w0 & Hm0 & _ & Hnew & _ & Hlater); [by left|].
  destruct Hnew as [Hid0 _]; [by left|].
  destruct (mount_settled halves ∅ 0 Hhalves) as (w0' & Hm0' & Hs0 & _); [by left|].
  rewrite Hm0 in Hm0'. injection Hm0' as <-.
  pose proof (settled_step defaultProps _ _ _ Hs0 (step_change defaultProps "Hello" w0))
    as Hs0'.
  destruct (settled_submit defaultProps _ _ Hs0') as [w1 Hw1].
  pose proof (settled_step defaultProps _ _ _ Hs0' (step_submit defaultProps _ _ Hw1))
    as Hs1.
  destruct (settled_rejected (AxiosError (Some 404%Z)) _ _ Hs1) as [w2 Hw2].
  destruct (Hlater w2) as (_ & _ & Hre).
  { eapply rtc_l; [apply step_change|].
    eapply rtc_l; [apply step_submit, Hw1|].
    eapply rtc_l; [eapply step_receive, Hw2|]. apply rtc_refl. }
  destruct (Hre halves) as (w3 & Hm3 & Hid3 & Hget3 & _).
  rewrite Hid0 in Hid3, Hget3.
  exists w0, w1, w2, w3. repeat split; try done.
  rewrite Hid3. apply Hformat.
Defined.
